(** * First Contact E.I.S. -- the tiered AI router and its cost guard

    A shallow embedding of [server/ai-router.js] (class [AIRouter]) and
    [server/cost-guard.js] (class [CostGuard]), and the properties of the
    routing, caching and budgeting policy proved about it.

    Conventions of the embedding.
    - The two classes mutate one process-wide guard object and read the
      wall clock; a method is a function from the [World] (guard, clock,
      trace of tier calls) to an [Outcome] and the new world.
    - JavaScript exceptions are the [Throw] outcome; [try]/[catch] is
      [try_catch].
    - Token counts, timestamps and TTLs are JavaScript numbers holding
      integers; they are modelled in [Z].  Confidence scores are decimal
      literals only ever compared with [<]; they are modelled as exact
      rationals, on which the order of the literals is the order of the
      doubles they denote.
    - The clock is virtual: within a call it only moves by the delay of
      the timers the code awaits; between calls it is set freely.  A call
      runs to completion; interleavings of concurrent requests at [await]
      points are outside the model.
    - [console.error] output is not part of the modelled state.
    - Strings are byte strings; [toLowerCase] is modelled on ASCII letters. *)

From Stdlib Require Import ZArith QArith String Ascii List Bool Lia.
From Stdlib Require Import DecimalString.
From stdpp Require Import gmap strings list fin_maps.

Set Warnings "-register-all".
Local Open Scope string_scope.
Local Open Scope Z_scope.

(** ** JavaScript values and string primitives *)

Module JS.

(** Primitive values that configuration properties take. *)
Inductive Prim : Type :=
| Undefined
| Bool (b : bool)
| Num (n : Z)
| Str (s : string).

(** ToBoolean. *)
Definition truthy (v : Prim) : bool :=
  match v with
  | Undefined => false
  | Bool b => b
  | Num n => negb (n =? 0)
  | Str s => negb (String.eqb s "")
  end.

(** [a && b]: the left operand when it is falsy, else the right one. *)
Definition and (a b : Prim) : Prim := if truthy a then b else a.

(** [x || d] for a possibly undefined number [x] and a default [d]. *)
Definition or_num (x : option Z) (d : Z) : Z :=
  match x with
  | Some n => if n =? 0 then d else n
  | None => d
  end.

(** [x || d] for a possibly undefined string [x]. *)
Definition or_str (x : option string) (d : string) : string :=
  match x with
  | Some s => if String.eqb s "" then d else s
  | None => d
  end.

(** [x || []] for a possibly undefined array (every array is truthy). *)
Definition or_arr {A} (x : option (list A)) : list A :=
  match x with
  | Some l => l
  | None => []
  end.

(** [{ k: d, ...o }.k]: the value [o] has under [k], else the literal [d]. *)
Definition override (d : Z) (x : option Z) : Z :=
  match x with
  | Some n => n
  | None => d
  end.

(** A default parameter value: used when the argument is [undefined]. *)
Definition default_arg (d : Z) (x : option Z) : Z :=
  match x with
  | Some n => n
  | None => d
  end.

Definition lower_ascii (c : ascii) : ascii :=
  let n := nat_of_ascii c in
  if ((65 <=? n)%nat && (n <=? 90)%nat)%bool then ascii_of_nat (n + 32) else c.

(** [String.prototype.toLowerCase]. *)
Fixpoint toLowerCase (s : string) : string :=
  match s with
  | EmptyString => EmptyString
  | String c s' => String (lower_ascii c) (toLowerCase s')
  end.

(** [String.prototype.includes]. *)
Fixpoint includes (s sub : string) : bool :=
  String.prefix sub s ||
  match s with
  | EmptyString => false
  | String _ s' => includes s' sub
  end.

Fixpoint drop (n : nat) (s : string) : string :=
  match n, s with
  | O, _ => s
  | S _, EmptyString => EmptyString
  | S n', String _ s' => drop n' s'
  end.

(** [String.prototype.replace] with a string pattern: only the first
    occurrence is replaced. *)
Fixpoint replace (s pat rep : string) : string :=
  if String.prefix pat s then String.append rep (drop (String.length pat) s)
  else match s with
       | EmptyString => EmptyString
       | String c s' => String c (replace s' pat rep)
       end.

(** [Array.prototype.includes] on an array of strings. *)
Definition arr_includes (l : list string) (x : string) : bool :=
  existsb (String.eqb x) l.

(** Number-to-string conversion of an integer, as in a template literal. *)
Definition num_to_string (n : Z) : string :=
  NilZero.string_of_int (Z.to_int n).

(** Thrown values: [Error] and [TypeError] objects with their message. *)
Inductive Error : Type :=
| Err (message : string)
| TypeErr (message : string).

Definition message (e : Error) : string :=
  match e with
  | Err m => m
  | TypeErr m => m
  end.

(** JSON data, the shape of the [options] argument. *)
Inductive Json : Type :=
| JNull
| JBool (b : bool)
| JNum (n : Z)
| JStr (s : string)
| JArr (items : list Json)
| JObj (fields : list (string * Json)).

End JS.

(** The platform functions the code calls and that are not part of the
    repository: the MD5 digest of [crypto], [JSON.stringify], and the two
    [Date] formatters (the first depends on the process-local time zone). *)
Class Runtime : Type := {
  md5_hex : string -> string;
  JSON_stringify : JS.Json -> string;
  toDateString : Z -> string;
  toISOString : Z -> string
}.

(** ** Data model *)

(** A client record as the intake form builds it. *)
Record Client : Type := mkClient {
  name : string;
  phone : string;
  needs : option (list string);
  urgency : option string;
  zipCode : string;
  householdSize : option Z
}.

(** The [input] argument of [route]: a free-text query or a client record. *)
Inductive Input : Type :=
| InStr (s : string)
| InObj (c : Client).

(** Interpolation of the input in a template literal: a string is itself,
    a plain object is "[object Object]". *)
Definition toString (input : Input) : string :=
  match input with
  | InStr s => s
  | InObj _ => "[object Object]"
  end.

(** Result objects.  A property that a result literal of the source does
    not set is [None] (or [false] for the two flags). *)
Record Result : Type := mkResult {
  uncertain : bool;
  confidence : Q;
  response : option string;
  source : option string;
  category : option string;
  priority : option string;
  recommendations : option (list string);
  nextSteps : option (list string);
  goals : option (list string);
  tasks : option (list string);
  resources : option (list string);
  timeline : option string;
  reviewDate : option string;
  customizable : bool;
  tokens : option Z
}.

(** The three tiers, for the trace of tier calls kept in the world. *)
Inductive Tier : Type := RulesTier | CheapTier | ExpensiveTier.

(** Application configuration ([config] of index.js), with the optional
    keys that the guard's constructor picks up through [...config]. *)
Module Config.
Record t : Type := mk {
  AI_ENABLE : JS.Prim;
  OPENAI_API_KEY : JS.Prim;
  CACHE_TTL_FAQ : option Z;
  CACHE_TTL_TRIAGE : option Z;
  AI_MAX_TOKENS_CHEAP : option Z;
  AI_MAX_TOKENS_EXPENSIVE : option Z;
  maxDailyTokens : option Z;
  maxCheapTokens : option Z;
  maxExpensiveTokens : option Z;
  defaultTTL : option Z
}.

(** [{}], the default argument of both constructors. *)
Definition empty : t :=
  mk JS.Undefined JS.Undefined None None None None None None None None.
End Config.

(** ** The cost guard's state *)

Record Stats : Type := mkStats {
  cacheHits : Z;
  cacheMisses : Z;
  cheapCalls : Z;
  expensiveCalls : Z;
  totalTokens : Z;
  dailyTokens : Z;
  lastResetDate : string
}.

Record Limits : Type := mkLimits {
  maxDailyTokens : Z;
  maxCheapTokens : Z;
  maxExpensiveTokens : Z;
  defaultTTL : Z
}.

Record CacheEntry : Type := mkEntry {
  data : Result;
  expiry : Z
}.

Record Guard : Type := mkGuard {
  cache : gmap string CacheEntry;
  stats : Stats;
  config : Limits
}.

(** The world a method runs in: the singleton guard, the clock
    ([Date.now()], in milliseconds) and the tier calls made so far. *)
Record World : Type := mkWorld {
  costGuard : Guard;
  now : Z;
  calls : list Tier
}.

Inductive Outcome (A : Type) : Type :=
| Return (a : A)
| Throw (e : JS.Error).
Arguments Return {A} a.
Arguments Throw {A} e.

Definition M (A : Type) : Type := World -> Outcome A * World.

Definition ret {A} (a : A) : M A := fun w => (Return a, w).

Definition bind {A B} (m : M A) (k : A -> M B) : M B := fun w =>
  match m w with
  | (Return a, w') => k a w'
  | (Throw e, w') => (Throw e, w')
  end.

Definition throw {A} (e : JS.Error) : M A := fun w => (Throw e, w).

Definition try_catch {A} (m : M A) (handler : JS.Error -> M A) : M A := fun w =>
  match m w with
  | (Return a, w') => (Return a, w')
  | (Throw e, w') => handler e w'
  end.

(** A computation that reads no state, run in the world. *)
Definition lift {A} (o : Outcome A) : M A := fun w => (o, w).

Definition gets {A} (f : World -> A) : M A := fun w => (Return (f w), w).

Definition modify (f : World -> World) : M unit := fun w => (Return tt, f w).

Declare Scope js_scope.
Delimit Scope js_scope with js.
Notation "x <- m ;; k" := (bind m (fun x => k))
  (at level 100, m at next level, right associativity) : js_scope.
Notation "m ;;; k" := (bind m (fun _ => k))
  (at level 100, right associativity) : js_scope.
Local Open Scope js_scope.

(** Field updates. *)
Definition set_stats (s : Stats) (w : World) : World :=
  mkWorld (mkGuard (cache (costGuard w)) s (config (costGuard w))) (now w) (calls w).

Definition set_cache (c : gmap string CacheEntry) (w : World) : World :=
  mkWorld (mkGuard c (stats (costGuard w)) (config (costGuard w))) (now w) (calls w).

Definition set_now (t : Z) (w : World) : World :=
  mkWorld (costGuard w) t (calls w).

Definition record_call (t : Tier) (w : World) : World :=
  mkWorld (costGuard w) (now w) (calls w ++ [t]).

(** [await new Promise(resolve => setTimeout(resolve, ms))]: the clock
    moves on by the timer's delay. *)
Definition sleep (ms : Z) : M unit := modify (fun w => set_now (now w + ms) w).

(** [a < b] on confidence scores. *)
Definition Qltb (a b : Q) : bool := negb (Qle_bool b a).

(** ** class CostGuard (server/cost-guard.js) *)

Module CostGuard.
Section Methods.
Context `{Runtime}.

(** The constructor, run when the clock shows [t]: an empty cache, zeroed
    counters, and the limits, where a key of [cfg] overrides the literal
    before it ([...config] comes last in the object literal). *)
Definition new (cfg : Config.t) (t : Z) : Guard :=
  mkGuard ∅
    (mkStats 0 0 0 0 0 0 (toDateString t))
    (mkLimits
       (JS.override 10000 (Config.maxDailyTokens cfg))
       (JS.override (JS.or_num (Config.AI_MAX_TOKENS_CHEAP cfg) 256)
          (Config.maxCheapTokens cfg))
       (JS.override (JS.or_num (Config.AI_MAX_TOKENS_EXPENSIVE cfg) 512)
          (Config.maxExpensiveTokens cfg))
       (JS.override 3600 (Config.defaultTTL cfg))).

(** [hashRequest(input, options)].  The router always passes a string
    (a template literal), so [normalized] is the input itself. *)
Definition hashRequest (input : string) (options : JS.Json) : string :=
  let normalized := input in
  let optionsStr := JSON_stringify options in
  md5_hex (String.append normalized optionsStr).

Definition bump_hits (s : Stats) : Stats :=
  mkStats (cacheHits s + 1) (cacheMisses s) (cheapCalls s) (expensiveCalls s)
    (totalTokens s) (dailyTokens s) (lastResetDate s).

Definition bump_misses (s : Stats) : Stats :=
  mkStats (cacheHits s) (cacheMisses s + 1) (cheapCalls s) (expensiveCalls s)
    (totalTokens s) (dailyTokens s) (lastResetDate s).

(** [cacheGet(key)]: a live entry is a hit; an expired one is deleted
    and counts as a miss. *)
Definition cacheGet (key : string) : M (option Result) := fun w =>
  let entry := cache (costGuard w) !! key in
  match entry with
  | Some e =>
      if now w <? expiry e
      then (Return (Some (data e)), set_stats (bump_hits (stats (costGuard w))) w)
      else
        let w1 := set_cache (delete key (cache (costGuard w))) w in
        (Return None, set_stats (bump_misses (stats (costGuard w1))) w1)
  | None => (Return None, set_stats (bump_misses (stats (costGuard w))) w)
  end.

(** [cacheSet(key, data, ttlSeconds = null)]. *)
Definition cacheSet (key : string) (d : Result) (ttlSeconds : option Z) : M unit :=
  fun w =>
    let ttl := JS.or_num ttlSeconds (defaultTTL (config (costGuard w))) in
    (Return tt,
     set_cache (<[key := mkEntry d (now w + ttl * 1000)]> (cache (costGuard w))) w).

Definition reset_daily (today : string) (s : Stats) : Stats :=
  mkStats (cacheHits s) (cacheMisses s) (cheapCalls s) (expensiveCalls s)
    (totalTokens s) 0 today.

(** [resetDailyCountersIfNeeded()]. *)
Definition resetDailyCountersIfNeeded : M unit := fun w =>
  let today := toDateString (now w) in
  if negb (String.eqb (lastResetDate (stats (costGuard w))) today)
  then (Return tt, set_stats (reset_daily today (stats (costGuard w))) w)
  else (Return tt, w).

(** [canMakeCall(tokenCount, type = 'cheap')]. *)
Definition canMakeCall (tokenCount : Z) (type : string) : M bool :=
  (resetDailyCountersIfNeeded ;;;
   daily <- gets (fun w => dailyTokens (stats (costGuard w))) ;;
   limits <- gets (fun w => config (costGuard w)) ;;
   if maxDailyTokens limits <? daily + tokenCount then ret false
   else
     let maxTokens :=
       if String.eqb type "expensive"
       then maxExpensiveTokens limits
       else maxCheapTokens limits in
     if maxTokens <? tokenCount then ret false
     else ret true)%js.

(** The usage tracking of [withBudget] after a successful operation. *)
Definition charge (estimatedTokens : Z) (type : string) (s : Stats) : Stats :=
  mkStats (cacheHits s) (cacheMisses s)
    (if String.eqb type "expensive" then cheapCalls s else cheapCalls s + 1)
    (if String.eqb type "expensive" then expensiveCalls s + 1 else expensiveCalls s)
    (totalTokens s + estimatedTokens)
    (dailyTokens s + estimatedTokens)
    (lastResetDate s).

Definition budget_message (label : string) (w : World) : string :=
  String.append "Budget exceeded for "
    (String.append label
       (String.append ". Daily limit: "
          (String.append (JS.num_to_string (maxDailyTokens (config (costGuard w))))
             (String.append ", used: "
                (JS.num_to_string (dailyTokens (stats (costGuard w)))))))).

(** [withBudget(label, fn, estimatedTokens = 100, type = 'cheap')].
    The [catch] clause logs and rethrows. *)
Definition withBudget {A} (label : string) (fn : M A)
    (estimatedTokens : option Z) (type : string) : M A :=
  let estimatedTokens := JS.default_arg 100 estimatedTokens in
  (ok <- canMakeCall estimatedTokens type ;;
   if negb ok
   then (msg <- gets (budget_message label) ;; throw (JS.Err msg))
   else
     try_catch
       (result <- fn ;;
        modify (fun w => set_stats (charge estimatedTokens type (stats (costGuard w))) w) ;;;
        ret result)
       (fun error => throw error))%js.

(** The object [getStats()] returns: the counters spread in, and the
    cache size.  (The three fields formatted with [toFixed] are left
    out: they are floating-point renderings of these counters.) *)
Record Snapshot : Type := mkSnapshot {
  snapshot_stats : Stats;
  cacheSize : nat
}.

(** [getStats()]. *)
Definition getStats : M Snapshot :=
  (resetDailyCountersIfNeeded ;;;
   gets (fun w => mkSnapshot (stats (costGuard w)) (size (cache (costGuard w)))))%js.

(** The guard's own [shouldEscalate(result)], which the router does not
    call.  [None] is a [null] or [undefined] result; a result object
    always carries [confidence], and no result literal of the source sets
    [needsMoreContext]. *)
Definition shouldEscalate (result : option Result) : bool :=
  match result with
  | None => false
  | Some r =>
      if Qltb (confidence r) 0.7 then true
      else if uncertain r then true
      else false
  end.

(** [clearCache()]: returns [{ cleared: true, newSize: this.cache.size }]. *)
Definition clearCache : M (bool * nat) := fun w =>
  let w' := set_cache ∅ w in
  (Return (true, size (cache (costGuard w'))), w').

(** The [limits] argument of [setEmergencyLimits]: an object that may
    carry any of the four keys of the guard's limits. *)
Record Patch : Type := mkPatch {
  patch_maxDailyTokens : option Z;
  patch_maxCheapTokens : option Z;
  patch_maxExpensiveTokens : option Z;
  patch_defaultTTL : option Z
}.

(** [{ ...this.config, ...limits }]. *)
Definition merge (l : Limits) (p : Patch) : Limits :=
  mkLimits
    (JS.override (maxDailyTokens l) (patch_maxDailyTokens p))
    (JS.override (maxCheapTokens l) (patch_maxCheapTokens p))
    (JS.override (maxExpensiveTokens l) (patch_maxExpensiveTokens p))
    (JS.override (defaultTTL l) (patch_defaultTTL p)).

(** [setEmergencyLimits(limits)]: merges and returns the new limits. *)
Definition setEmergencyLimits (limits : Patch) : M Limits := fun w =>
  let merged := merge (config (costGuard w)) limits in
  (Return merged,
   mkWorld (mkGuard (cache (costGuard w)) (stats (costGuard w)) merged)
     (now w) (calls w)).

End Methods.
End CostGuard.

(** ** class AIRouter (server/ai-router.js) *)

Module AIRouter.

(** The router object: its configuration and the [enabled] property. *)
Record t : Type := mk {
  config : Config.t;
  enabled : JS.Prim
}.

(** The constructor: [this.enabled = config.AI_ENABLE && config.OPENAI_API_KEY]. *)
Definition new (cfg : Config.t) : t :=
  mk cfg (JS.and (Config.AI_ENABLE cfg) (Config.OPENAI_API_KEY cfg)).

(** [this.faqRules], in the key order [Object.entries] enumerates. *)
Definition faqRules : list (string * string) :=
  [ ("housing", "For housing assistance, you may qualify for rapid rehousing, emergency shelter, or rental assistance. Eligibility typically requires proof of homelessness or housing instability.");
    ("employment", "Employment services include job training, resume help, and placement assistance. Most programs are free and available regardless of work history.");
    ("mental-health", "Mental health services include counseling, crisis support, and medication assistance. Many services are available on a sliding scale.");
    ("veterans", "Veterans have access to specialized housing, healthcare, and employment programs through VA and community partners.");
    ("substance-abuse", "Substance abuse support includes outpatient counseling, residential treatment, and harm reduction services.");
    ("medical", "Medical services include free clinics, insurance enrollment, and specialty care referrals.");
    ("food", "Food assistance includes food banks, CalFresh (SNAP), and meal programs at community centers.");
    ("legal", "Legal aid includes help with housing court, benefits appeals, and family law matters.");
    ("utilities", "Utility assistance programs can help with past-due bills and ongoing payment support.");
    ("transportation", "Transportation help includes bus passes, rides to appointments, and vehicle repair assistance.") ].

(** [this.triageRules], the table the constructor assigns.  It is an own
    property of the router object with the name of the method
    [triageRules], which it shadows. *)
Definition triageRules_property : list (string * string) :=
  [ ("high-housing", "Immediate housing placement or emergency shelter referral needed within 24-48 hours.");
    ("high-medical", "Schedule urgent medical appointment and assist with insurance enrollment.");
    ("high-mental-health", "Crisis assessment and immediate mental health referral required.");
    ("medium-housing", "Housing assessment and waitlist placement, follow up within 1 week.");
    ("medium-employment", "Job readiness assessment and skills training referral.");
    ("low-general", "Resource information and self-service options, follow up in 2 weeks.") ].

(** [this.careplanTemplates]. *)
Record Template : Type := mkTemplate {
  t_goals : list string;
  t_tasks : list string;
  t_resources : list string
}.

Definition housing_focused : Template :=
  mkTemplate
    ["Secure stable housing within 90 days"; "Maintain housing stability"]
    ["Complete housing application"; "Gather required documents"; "Attend housing appointments"]
    ["Rapid Rehousing Program"; "Housing Authority waitlist"; "Emergency rental assistance"].

Definition employment_focused : Template :=
  mkTemplate
    ["Obtain sustainable employment"; "Increase job skills"]
    ["Update resume"; "Apply for job training"; "Attend job interviews"]
    ["WorkForce Development"; "One-Stop Career Center"; "Skills training programs"].

Definition health_focused : Template :=
  mkTemplate
    ["Establish primary care"; "Manage chronic conditions"]
    ["Schedule medical appointment"; "Apply for health insurance"; "Follow medication schedule"]
    ["Community Health Center"; "Medi-Cal enrollment"; "Pharmacy assistance"].

(** Property reads on the input; a string has none of these properties. *)
Definition input_needs (input : Input) : option (list string) :=
  match input with
  | InObj c => needs c
  | InStr _ => None
  end.

Definition input_urgency (input : Input) : option string :=
  match input with
  | InObj c => urgency c
  | InStr _ => None
  end.

Definition input_householdSize (input : Input) : option Z :=
  match input with
  | InObj c => householdSize c
  | InStr _ => None
  end.

(** The result literals of the source. *)
Definition faq_answer (category response : string) : Result :=
  mkResult false 0.9 (Some response) (Some "rules") (Some category)
    None None None None None None None None false None.

Definition greeting_answer : Result :=
  mkResult false 0.8
    (Some "I can help you understand what services are available. What kind of help do you need? I can assist with housing, employment, healthcare, food, or other services.")
    (Some "rules") (Some "general")
    None None None None None None None None false None.

Definition navigator_uncertain : Result :=
  mkResult true 0.4
    (Some "I'd like to help you find the right resources. Could you tell me more specifically what kind of assistance you're looking for?")
    None None None None None None None None None None false None.

Definition triage_result (p : string) (recs steps : list string) (c : Q)
    (src : string) : Result :=
  mkResult false c None (Some src) None (Some p) (Some recs) (Some steps)
    None None None None None false None.

Definition urgent_housing : Result :=
  triage_result "urgent"
    ["Emergency shelter placement needed within 24 hours";
     "Rapid rehousing assessment required";
     "Connect with housing navigator immediately"]
    ["Schedule emergency housing meeting"; "Gather housing documents";
     "Contact emergency shelter"]
    0.95 "rules".

Definition urgent_crisis : Result :=
  triage_result "urgent"
    ["Crisis assessment required";
     "Mental health evaluation needed";
     "Safety planning essential"]
    ["Schedule crisis assessment"; "Provide crisis hotline numbers";
     "Create safety plan"]
    0.95 "rules".

(** [{ uncertain: true, confidence: 0.3 }]. *)
Definition uncertain_default : Result :=
  mkResult true 0.3 None None None None None None None None None None None false None.

(** One step of the [needs.forEach] loop of [triageRules]: the pair
    pushed on [recommendations] and [nextSteps] for a need. *)
Definition need_advice (need : string) : list (string * string) :=
  if String.eqb need "housing"
  then [("Housing assessment and application", "Complete housing intake form")]
  else if String.eqb need "employment"
  then [("Job readiness assessment", "Schedule employment counseling")]
  else if String.eqb need "medical"
  then [("Healthcare enrollment assistance", "Schedule medical intake appointment")]
  else [].

Section Methods.
Context `{Runtime}.
Variable this : t.

(** [navigatorRules(input, options)].  It reads no state; on an input
    that is not a string the call [input.toLowerCase()] throws. *)
Definition navigatorRules (input : Input) (options : JS.Json) : Outcome Result :=
  match input with
  | InObj _ => Throw (JS.TypeErr "input.toLowerCase is not a function")
  | InStr s =>
      let query := JS.toLowerCase s in
      match
        find (fun entry : string * string =>
                JS.includes query (fst entry)
                || JS.includes query (JS.replace (fst entry) "-" " "))
             faqRules
      with
      | Some (category, response) => Return (faq_answer category response)
      | None =>
          if JS.includes query "help" || JS.includes query "hello"
             || JS.includes query "start"
          then Return greeting_answer
          else Return navigator_uncertain
      end
  end.

(** The method [triageRules(client, options)] of the class.  It reads no
    state and throws on no input of this type.  On a router object the
    name [this.triageRules] does not reach it (see [tryRulesFirst]). *)
Definition triageRules (client : Input) (options : JS.Json) : Result :=
  let needs := JS.or_arr (input_needs client) in
  let urgency := JS.or_str (input_urgency client) "medium" in
  let householdSize := JS.or_num (input_householdSize client) 1 in
  if (String.eqb urgency "high" || String.eqb urgency "critical")
     && JS.arr_includes needs "housing"
  then urgent_housing
  else if (String.eqb urgency "high" || String.eqb urgency "critical")
          && (JS.arr_includes needs "mental-health"
              || JS.arr_includes needs "substance-abuse")
  then urgent_crisis
  else
    let advice := flat_map need_advice needs in
    let recommendations := map fst advice in
    let nextSteps := map snd advice in
    triage_result urgency recommendations nextSteps 0.8 "rules".

(** [careplanRules(client, options)]; [needs[0]] is the head of the array. *)
Definition careplanRules (client : Input) (options : JS.Json) : M Result :=
  let needs := JS.or_arr (input_needs client) in
  let primaryNeed := JS.or_str (head needs) "general" in
  let template :=
    if JS.includes primaryNeed "employment" then employment_focused
    else if JS.includes primaryNeed "medical"
            || JS.includes primaryNeed "mental-health"
    then health_focused
    else housing_focused in
  (t0 <- gets now ;;
   ret (mkResult false 0.8 None (Some "rules") None None None None
          (Some (t_goals template)) (Some (t_tasks template))
          (Some (t_resources template)) (Some "90 days")
          (Some (toISOString (t0 + 30 * 24 * 60 * 60 * 1000)))
          true None))%js.

(** [tryRulesFirst(task, input, options)].  In the triage case the
    expression [this.triageRules] is the own property the constructor
    assigned, an object of rule strings, not the method; calling it throws
    a [TypeError]. *)
Definition tryRulesFirst (task : string) (input : Input) (options : JS.Json)
    : M Result :=
  (modify (record_call RulesTier) ;;;
   if String.eqb task "navigator" then lift (navigatorRules input options)
   else if String.eqb task "triage"
   then throw (JS.TypeErr "this.triageRules is not a function")
   else if String.eqb task "careplan" then careplanRules input options
   else ret uncertain_default)%js.

(** The result literal of the cheap tier's operation. *)
Definition cheap_answer (task : string) : Result :=
  mkResult false 0.7
    (Some (String.append "Enhanced response for "
             (String.append task " (cheap model)")))
    (Some "cheap-model") None None None None None None None None None
    false (Config.AI_MAX_TOKENS_CHEAP (config this)).

(** The mocked provider call of the cheap tier. *)
Definition cheap_operation (task : string) : M Result :=
  (sleep 500 ;;; ret (cheap_answer task))%js.

(** [tryCheapModel(task, input, options)]. *)
Definition tryCheapModel (task : string) (input : Input) (options : JS.Json)
    : M Result :=
  (modify (record_call CheapTier) ;;;
   if negb (JS.truthy (enabled this)) then ret uncertain_default
   else
     CostGuard.withBudget (String.append "cheap-" task)
       (cheap_operation task)
       (Config.AI_MAX_TOKENS_CHEAP (config this))
       "cheap")%js.

(** The result literal of the expensive tier's operation. *)
Definition expensive_answer (task : string) : Result :=
  mkResult false 0.95
    (Some (String.append "Detailed response for "
             (String.append task " (expensive model)")))
    (Some "expensive-model") None None None None None None None None None
    false (Config.AI_MAX_TOKENS_EXPENSIVE (config this)).

(** The mocked provider call of the expensive tier. *)
Definition expensive_operation (task : string) : M Result :=
  (sleep 1000 ;;; ret (expensive_answer task))%js.

(** [tryExpensiveModel(task, input, options)]. *)
Definition tryExpensiveModel (task : string) (input : Input) (options : JS.Json)
    : M Result :=
  (modify (record_call ExpensiveTier) ;;;
   if negb (JS.truthy (enabled this)) then ret uncertain_default
   else
     CostGuard.withBudget (String.append "expensive-" task)
       (expensive_operation task)
       (Config.AI_MAX_TOKENS_EXPENSIVE (config this))
       "expensive")%js.

(** [shouldEscalate(result)]; every result here is an object, so the
    [!result] test never fires. *)
Definition shouldEscalate (result : Result) : bool :=
  uncertain result || Qltb (confidence result) 0.7.

(** [getTTL(task)]. *)
Definition getTTL (task : string) : Z :=
  if String.eqb task "navigator" then JS.or_num (Config.CACHE_TTL_FAQ (config this)) 86400
  else if String.eqb task "triage" then JS.or_num (Config.CACHE_TTL_TRIAGE (config this)) 7200
  else if String.eqb task "careplan" then JS.or_num (Config.CACHE_TTL_TRIAGE (config this)) 7200
  else 3600.

Definition fallback_navigator : Result :=
  mkResult false 0.5
    (Some "I'm here to help connect you with services. Please let a caseworker know what specific assistance you need.")
    (Some "fallback") None None None None None None None None None false None.

Definition fallback_triage : Result :=
  triage_result "medium"
    ["General assessment needed"; "Schedule intake appointment"]
    ["Contact caseworker"; "Gather documentation"]
    0.5 "fallback".

Definition fallback_careplan : Result :=
  mkResult false 0.5 None (Some "fallback") None None None None
    (Some ["Stabilize current situation"; "Connect with appropriate services"])
    (Some ["Meet with caseworker"; "Complete assessments"])
    (Some ["Case management services"; "Community resources"])
    None None false None.

Definition fallback_default : Result :=
  mkResult false 0.3
    (Some "Service temporarily unavailable. Please contact your caseworker.")
    (Some "fallback") None None None None None None None None None false None.

(** [getFallbackResponse(task, input, options)]. *)
Definition getFallbackResponse (task : string) (input : Input) (options : JS.Json)
    : Result :=
  if String.eqb task "navigator" then fallback_navigator
  else if String.eqb task "triage" then fallback_triage
  else if String.eqb task "careplan" then fallback_careplan
  else fallback_default.

(** The cache key of [route]: the digest of the template literal
    [`${task}:${input}`] and the serialized options. *)
Definition cacheKey (task : string) (input : Input) (options : JS.Json) : string :=
  CostGuard.hashRequest
    (String.append task (String.append ":" (toString input))) options.

(** The body of the [try] block of [route]. *)
Definition route_try (task : string) (input : Input) (options : JS.Json)
    (key : string) : M Result :=
  (result <- tryRulesFirst task input options ;;
   result <-
     (if shouldEscalate result && JS.truthy (enabled this)
      then
        result <- tryCheapModel task input options ;;
        if shouldEscalate result && JS.truthy (enabled this)
        then tryExpensiveModel task input options
        else ret result
      else ret result) ;;
   let ttl := getTTL task in
   CostGuard.cacheSet key result (Some ttl) ;;;
   ret result)%js.

(** [route(task, input, options = {})]. *)
Definition route (task : string) (input : Input) (options : JS.Json) : M Result :=
  let key := cacheKey task input options in
  (cached <- CostGuard.cacheGet key ;;
   match cached with
   | Some r => ret r
   | None =>
       try_catch (route_try task input options key)
         (fun error => ret (getFallbackResponse task input options))
   end)%js.

(** The object the router's [getStats()] returns:
    [{ enabled: this.enabled, ...this.costGuard.getStats() }]. *)
Record Report : Type := mkReport {
  report_enabled : JS.Prim;
  report_guard : CostGuard.Snapshot
}.

(** [getStats()]. *)
Definition getStats : M Report :=
  (s <- CostGuard.getStats ;;
   ret (mkReport (enabled this) s))%js.

End Methods.
End AIRouter.

(** ** The navigator endpoint (server/routes.js)

    The handler of [POST /api/navigator]: it reads [query] and [context]
    from the request body, routes the query and replies with three fields
    of the result; its own [catch] clause replies with the navigator
    fallback. *)

Module Routes.

(** ToBoolean on JSON data, for [req.body.context || {}]. *)
Definition json_truthy (j : JS.Json) : bool :=
  match j with
  | JS.JNull => false
  | JS.JBool b => b
  | JS.JNum n => negb (n =? 0)
  | JS.JStr s => negb (String.eqb s "")
  | JS.JArr _ => true
  | JS.JObj _ => true
  end.

Definition or_empty_object (x : option JS.Json) : JS.Json :=
  match x with
  | Some j => if json_truthy j then j else JS.JObj []
  | None => JS.JObj []
  end.

(** The JSON body of the reply. *)
Record Reply : Type := mkReply {
  reply_response : option string;
  reply_confidence : Q;
  reply_source : option string
}.

Section Handlers.
Context `{Runtime}.
Variable aiRouter : AIRouter.t.

(** The handler, for a body whose [query] is a string or missing. *)
Definition navigator (query : option string) (context : option JS.Json)
    : World -> Reply * World := fun w =>
  let query := JS.or_str query "" in
  match AIRouter.route aiRouter "navigator" (InStr query)
          (JS.JObj [("context", or_empty_object context)]) w with
  | (Return result, w') =>
      (mkReply (response result) (confidence result) (source result), w')
  | (Throw _, w') =>
      (mkReply
         (Some "I'm here to help connect you with services. Please let a caseworker know what specific assistance you need.")
         0.5 (Some "fallback"), w')
  end.

End Handlers.
End Routes.

(** The world after the lazy reset check. *)
Abbreviation after_reset w := (snd (CostGuard.resetDailyCountersIfNeeded w)).

(** ** The spec's budget predicate

    [canSpend] follows the words of the specification: true iff the
    estimate is within the tier's ceiling and the daily usage plus the
    estimate is within the daily ceiling.  It is evaluated on a world on
    which the lazy reset check has been performed. *)

Definition perTierCeiling (tier : string) (l : Limits) : Z :=
  if String.eqb tier "expensive" then maxExpensiveTokens l else maxCheapTokens l.

Definition canSpend (tokenEstimate : Z) (tier : string) (w : World) : bool :=
  (tokenEstimate <=? perTierCeiling tier (config (costGuard w)))
  && (dailyTokens (stats (costGuard w)) + tokenEstimate
      <=? maxDailyTokens (config (costGuard w))).

(** ** Runs of the router *)

Section Runs.
Context `{Runtime}.
Variable this : AIRouter.t.

(** Whether a [route] call is served without entering the [catch]
    clause: from the cache, or by the tiers returning normally. *)
Definition route_ok (task : string) (input : Input) (options : JS.Json)
    (w : World) : bool :=
  let key := AIRouter.cacheKey task input options in
  match CostGuard.cacheGet key w with
  | (Return (Some _), _) => true
  | (Return None, w0) =>
      match AIRouter.route_try this task input options key w0 with
      | (Return _, _) => true
      | (Throw _, _) => false
      end
  | (Throw _, _) => false
  end.

(** Navigator queries sent to [route] one after the other. *)
Fixpoint route_queries (queries : list string) (options : JS.Json)
    : M (list Result) :=
  match queries with
  | [] => ret []
  | q :: rest =>
      (r <- AIRouter.route this "navigator" (InStr q) options ;;
       rs <- route_queries rest options ;;
       ret (r :: rs))%js
  end.

End Runs.

(** ** A concrete runtime

    Used to run the model on concrete inputs.  The digest is the identity
    (a collision-free stand-in for MD5), the date string is the number of
    the UTC day, and the ISO string is the timestamp in decimal. *)

Module Sample.

Definition dquote : string := String (ascii_of_nat 34) EmptyString.

Definition quoted (s : string) : string :=
  String.append dquote (String.append s dquote).

Fixpoint stringify (j : JS.Json) : string :=
  match j with
  | JS.JNull => "null"
  | JS.JBool b => if b then "true" else "false"
  | JS.JNum n => JS.num_to_string n
  | JS.JStr s => quoted s
  | JS.JArr items =>
      String.append "[" (String.append (String.concat "," (map stringify items)) "]")
  | JS.JObj fields =>
      String.append "{"
        (String.append
           (String.concat ","
              (map (fun kv : string * JS.Json =>
                      let (k, v) := kv in
                      String.append (quoted k) (String.append ":" (stringify v)))
                 fields))
           "}")
  end.

Definition runtime : Runtime :=
  {| md5_hex := fun s => s;
     JSON_stringify := stringify;
     toDateString := fun t => String.append "day " (JS.num_to_string (t / 86400000));
     toISOString := JS.num_to_string |}.

(** The configuration of index.js with no environment variable set, and
    with the AI layer switched on. *)
Definition config_off : Config.t :=
  Config.mk (JS.Bool false) (JS.Str "") (Some 86400) (Some 7200) (Some 256) (Some 512)
    None None None None.

Definition config_on : Config.t :=
  Config.mk (JS.Bool true) (JS.Str "sk-test-123") (Some 86400) (Some 7200)
    (Some 256) (Some 512) None None None None.

(** The world right after the singletons are built at time [t]. *)
Definition fresh (cfg : Config.t) (t : Z) : World :=
  mkWorld (@CostGuard.new runtime cfg t) t [].

(** [{ caseworkerContext: {} }], the options the triage endpoint passes. *)
Definition triage_options : JS.Json := JS.JObj [("caseworkerContext", JS.JObj [])].

(** [{ context: {} }], the options the navigator endpoint passes. *)
Definition navigator_options : JS.Json := JS.JObj [("context", JS.JObj [])].

Definition critical_housing_client : Client :=
  mkClient "Ana" "555-0100" (Some ["housing"]) (Some "critical") "90001" (Some 1).

Definition low_food_client : Client :=
  mkClient "Ben" "555-0101" (Some ["food"]) (Some "low") "90002" (Some 3).

Definition employment_client : Client :=
  mkClient "Eve" "555-0104" (Some ["employment"; "housing"]) (Some "medium") "90005"
    (Some 2).

(** A guard that was last used on day 0, seen when the clock shows day 1. *)
Definition next_day_world : World :=
  mkWorld
    (mkGuard ∅ (mkStats 3 5 2 1 900 500 "day 0") (mkLimits 10000 256 512 3600))
    86400000 [].

(** A configuration with the AI layer on and a daily ceiling of 600
    tokens: two cheap calls of 256 tokens fit, a third does not. *)
Definition config_tight : Config.t :=
  Config.mk (JS.Bool true) (JS.Str "sk-test-123") (Some 86400) (Some 7200)
    (Some 256) (Some 512) (Some 600) None None None.

End Sample.

(** ** Properties of the cost guard *)

Section GuardProperties.
Context `{Runtime}.

Lemma reset_returns w :
  CostGuard.resetDailyCountersIfNeeded w = (Return tt, after_reset w).
Proof.
  unfold CostGuard.resetDailyCountersIfNeeded.
  destruct (negb _); reflexivity.
Qed.

Lemma reset_same_day w :
  lastResetDate (stats (costGuard w)) = toDateString (now w) ->
  after_reset w = w.
Proof.
  intros E. unfold CostGuard.resetDailyCountersIfNeeded.
  rewrite E, String.eqb_refl. reflexivity.
Qed.

Lemma reset_new_day w :
  lastResetDate (stats (costGuard w)) <> toDateString (now w) ->
  after_reset w =
    set_stats (CostGuard.reset_daily (toDateString (now w)) (stats (costGuard w))) w.
Proof.
  intros E. unfold CostGuard.resetDailyCountersIfNeeded.
  destruct (String.eqb_spec (lastResetDate (stats (costGuard w)))
              (toDateString (now w))) as [E'|E']; [contradiction | reflexivity].
Qed.

(** What the reset check leaves alone, whichever branch it takes. *)
Lemma reset_frame w :
  cache (costGuard (after_reset w)) = cache (costGuard w)
  /\ config (costGuard (after_reset w)) = config (costGuard w)
  /\ now (after_reset w) = now w
  /\ calls (after_reset w) = calls w
  /\ cacheHits (stats (costGuard (after_reset w))) = cacheHits (stats (costGuard w))
  /\ cacheMisses (stats (costGuard (after_reset w))) = cacheMisses (stats (costGuard w))
  /\ cheapCalls (stats (costGuard (after_reset w))) = cheapCalls (stats (costGuard w))
  /\ expensiveCalls (stats (costGuard (after_reset w)))
     = expensiveCalls (stats (costGuard w))
  /\ totalTokens (stats (costGuard (after_reset w))) = totalTokens (stats (costGuard w)).
Proof.
  unfold CostGuard.resetDailyCountersIfNeeded.
  destruct (negb _); cbn; repeat split; reflexivity.
Qed.

(** [canMakeCall] is the lazy reset followed by the spec's predicate. *)
Lemma canMakeCall_eq tokenCount type w :
  CostGuard.canMakeCall tokenCount type w =
    (Return (canSpend tokenCount type (after_reset w)), after_reset w).
Proof.
  unfold CostGuard.canMakeCall, bind, gets, ret.
  rewrite reset_returns. cbn [fst snd].
  unfold canSpend, perTierCeiling.
  set (w0 := after_reset w).
  destruct (Z.ltb_spec (maxDailyTokens (config (costGuard w0)))
              (dailyTokens (stats (costGuard w0)) + tokenCount)) as [Hd|Hd].
  - replace (dailyTokens (stats (costGuard w0)) + tokenCount
             <=? maxDailyTokens (config (costGuard w0))) with false
      by (symmetry; apply Z.leb_gt; lia).
    rewrite andb_false_r. reflexivity.
  - replace (dailyTokens (stats (costGuard w0)) + tokenCount
             <=? maxDailyTokens (config (costGuard w0))) with true
      by (symmetry; apply Z.leb_le; lia).
    rewrite andb_true_r.
    destruct (String.eqb type "expensive").
    + destruct (Z.ltb_spec (maxExpensiveTokens (config (costGuard w0))) tokenCount);
        [ replace (tokenCount <=? _) with false by (symmetry; apply Z.leb_gt; lia)
        | replace (tokenCount <=? _) with true by (symmetry; apply Z.leb_le; lia) ];
        reflexivity.
    + destruct (Z.ltb_spec (maxCheapTokens (config (costGuard w0))) tokenCount);
        [ replace (tokenCount <=? _) with false by (symmetry; apply Z.leb_gt; lia)
        | replace (tokenCount <=? _) with true by (symmetry; apply Z.leb_le; lia) ];
        reflexivity.
Qed.

(** The three ways [withBudget] ends. *)
Lemma withBudget_eq {A} label (fn : M A) estimatedTokens type w :
  CostGuard.withBudget label fn estimatedTokens type w =
    let n := JS.default_arg 100 estimatedTokens in
    let w0 := after_reset w in
    if canSpend n type w0
    then match fn w0 with
         | (Return a, w1) =>
             (Return a, set_stats (CostGuard.charge n type (stats (costGuard w1))) w1)
         | (Throw e, w1) => (Throw e, w1)
         end
    else (Throw (JS.Err (CostGuard.budget_message label w0)), w0).
Proof.
  unfold CostGuard.withBudget, bind. rewrite canMakeCall_eq.
  cbn zeta.
  destruct (canSpend _ _ _); cbn [negb].
  - unfold try_catch, bind, modify, ret, throw.
    destruct (fn (after_reset w)) as [[a|e] w1]; reflexivity.
  - reflexivity.
Qed.

(** C10.  Daily reset: when the date string of the clock differs from
    [lastResetDate], the reset check sets [dailyTokens] to 0 and
    [lastResetDate] to today and leaves [cheapCalls], [expensiveCalls] and
    [totalTokens] (and the cache counters) as they were; [canMakeCall]
    and [getStats] end in exactly the world the check produces, and
    [withBudget] decides and runs its operation in that world. *)
Theorem daily_reset_frame (w : World) :
  lastResetDate (stats (costGuard w)) <> toDateString (now w) ->
  let w' := after_reset w in
  (dailyTokens (stats (costGuard w')) = 0
   /\ lastResetDate (stats (costGuard w')) = toDateString (now w)
   /\ cheapCalls (stats (costGuard w')) = cheapCalls (stats (costGuard w))
   /\ expensiveCalls (stats (costGuard w')) = expensiveCalls (stats (costGuard w))
   /\ totalTokens (stats (costGuard w')) = totalTokens (stats (costGuard w))
   /\ cacheHits (stats (costGuard w')) = cacheHits (stats (costGuard w))
   /\ cacheMisses (stats (costGuard w')) = cacheMisses (stats (costGuard w)))
  /\ (forall tokenCount type,
        CostGuard.canMakeCall tokenCount type w
        = (Return (canSpend tokenCount type w'), w'))
  /\ CostGuard.getStats w
     = (Return (CostGuard.mkSnapshot (stats (costGuard w'))
                  (size (cache (costGuard w')))), w')
  /\ (forall A label (fn : M A) estimatedTokens type,
        let n := JS.default_arg 100 estimatedTokens in
        CostGuard.withBudget label fn estimatedTokens type w =
          if canSpend n type w'
          then match fn w' with
               | (Return a, w1) =>
                   (Return a,
                    set_stats (CostGuard.charge n type (stats (costGuard w1))) w1)
               | (Throw e, w1) => (Throw e, w1)
               end
          else (Throw (JS.Err (CostGuard.budget_message label w')), w')).
Proof.
  intros Hday w'. subst w'.
  repeat split.
  1-7: rewrite (reset_new_day w Hday); reflexivity.
  - intros. apply canMakeCall_eq.
  - unfold CostGuard.getStats, bind, gets. rewrite reset_returns. reflexivity.
  - intros. apply withBudget_eq.
Qed.

(** C4, as amended.  [withBudget] first performs the lazy reset check.
    If the call is then over budget it throws the budget error and the
    world is exactly what the check left, whatever the operation is; if
    the operation throws, the error propagates and the world is exactly
    what the operation left; only when the operation returns is usage
    tracked: [totalTokens] and [dailyTokens] are raised by the estimate
    and the call counter of the tier by one ([expensiveCalls] for the type
    "expensive", [cheapCalls] for every other type), the other call
    counter and all the rest of the world staying as the operation left
    them.  The check itself never touches [totalTokens] or the call
    counters, and changes nothing on the same day. *)
Theorem withBudget_charges_only_success {A} label (fn : M A) estimatedTokens type w :
  let n := JS.default_arg 100 estimatedTokens in
  let w0 := after_reset w in
  (canSpend n type w0 = false ->
     CostGuard.withBudget label fn estimatedTokens type w
     = (Throw (JS.Err (CostGuard.budget_message label w0)), w0))
  /\ (canSpend n type w0 = true ->
      forall e w1, fn w0 = (Throw e, w1) ->
        CostGuard.withBudget label fn estimatedTokens type w = (Throw e, w1))
  /\ (canSpend n type w0 = true ->
      forall a w1, fn w0 = (Return a, w1) ->
        CostGuard.withBudget label fn estimatedTokens type w
        = (Return a, set_stats (CostGuard.charge n type (stats (costGuard w1))) w1))
  /\ (canSpend n type w0 = true ->
      forall a w1, fn w0 = (Return a, w1) ->
        exists w',
          CostGuard.withBudget label fn estimatedTokens type w = (Return a, w')
          /\ dailyTokens (stats (costGuard w')) = dailyTokens (stats (costGuard w1)) + n
          /\ totalTokens (stats (costGuard w')) = totalTokens (stats (costGuard w1)) + n
          /\ (type = "expensive" ->
              expensiveCalls (stats (costGuard w'))
              = expensiveCalls (stats (costGuard w1)) + 1
              /\ cheapCalls (stats (costGuard w')) = cheapCalls (stats (costGuard w1)))
          /\ (type <> "expensive" ->
              cheapCalls (stats (costGuard w')) = cheapCalls (stats (costGuard w1)) + 1
              /\ expensiveCalls (stats (costGuard w'))
                 = expensiveCalls (stats (costGuard w1)))
          /\ cacheHits (stats (costGuard w')) = cacheHits (stats (costGuard w1))
          /\ cacheMisses (stats (costGuard w')) = cacheMisses (stats (costGuard w1))
          /\ lastResetDate (stats (costGuard w')) = lastResetDate (stats (costGuard w1))
          /\ cache (costGuard w') = cache (costGuard w1)
          /\ config (costGuard w') = config (costGuard w1)
          /\ now w' = now w1
          /\ calls w' = calls w1)
  /\ (totalTokens (stats (costGuard w0)) = totalTokens (stats (costGuard w))
      /\ cheapCalls (stats (costGuard w0)) = cheapCalls (stats (costGuard w))
      /\ expensiveCalls (stats (costGuard w0)) = expensiveCalls (stats (costGuard w)))
  /\ (lastResetDate (stats (costGuard w)) = toDateString (now w) -> w0 = w).
Proof.
  intros n w0. subst n w0.
  split; [|split; [|split; [|split; [|split]]]].
  - intros Hc. rewrite withBudget_eq. cbn zeta. rewrite Hc. reflexivity.
  - intros Hc e w1 Hfn. rewrite withBudget_eq. cbn zeta. rewrite Hc, Hfn. reflexivity.
  - intros Hc a w1 Hfn. rewrite withBudget_eq. cbn zeta. rewrite Hc, Hfn. reflexivity.
  - intros Hc a w1 Hfn. rewrite withBudget_eq. cbn zeta. rewrite Hc, Hfn.
    eexists. split; [reflexivity|]. cbn.
    split; [reflexivity|]. split; [reflexivity|].
    split.
    { intros ->. cbn. split; reflexivity. }
    split.
    { intros Hne. apply String.eqb_neq in Hne. rewrite Hne. split; reflexivity. }
    repeat split.
  - destruct (reset_frame w) as (_ & _ & _ & _ & _ & _ & Hch & Hex & Htot).
    repeat split; assumption.
  - apply reset_same_day.
Qed.

End GuardProperties.

(** ** Properties of the router *)

(** Splits an equation between two returning runs into the equation of
    the results and that of the worlds, without unfolding either side. *)
Ltac split_outcome Heq :=
  let Hr := fresh "Hr" in
  let Hw := fresh "Hw" in
  pose proof (f_equal fst Heq) as Hr;
  pose proof (f_equal snd Heq) as Hw;
  cbn [fst snd] in Hr, Hw;
  injection Hr as <-; rewrite <- Hw; clear Heq.

Section RouterProperties.
Context `{Runtime}.
Variable this : AIRouter.t.

(** *** The cache *)

Lemma cacheGet_absent key w :
  cache (costGuard w) !! key = None ->
  CostGuard.cacheGet key w
  = (Return None, set_stats (CostGuard.bump_misses (stats (costGuard w))) w).
Proof. intros E. unfold CostGuard.cacheGet. rewrite E. reflexivity. Qed.

Lemma cacheGet_live key w e :
  cache (costGuard w) !! key = Some e ->
  now w < expiry e ->
  CostGuard.cacheGet key w
  = (Return (Some (data e)), set_stats (CostGuard.bump_hits (stats (costGuard w))) w).
Proof.
  intros E Hlt. unfold CostGuard.cacheGet. rewrite E.
  apply Z.ltb_lt in Hlt. rewrite Hlt. reflexivity.
Qed.

(** A miss leaves the key absent and only touches the miss counter and,
    for an expired entry, that entry. *)
Lemma cacheGet_miss_inv key w w0 :
  CostGuard.cacheGet key w = (Return None, w0) ->
  w0 = set_stats (CostGuard.bump_misses (stats (costGuard w)))
         (set_cache (delete key (cache (costGuard w))) w).
Proof.
  unfold CostGuard.cacheGet.
  destruct (cache (costGuard w) !! key) as [e|] eqn:E.
  - destruct (now w <? expiry e); intros Heq; inversion Heq. reflexivity.
  - intros Heq; inversion Heq. rewrite delete_id by exact E.
    destruct w as [[c s l] t cs]. reflexivity.
Qed.

Lemma cacheGet_hit_inv key w r w0 :
  CostGuard.cacheGet key w = (Return (Some r), w0) ->
  exists e, cache (costGuard w) !! key = Some e /\ data e = r
            /\ now w < expiry e
            /\ w0 = set_stats (CostGuard.bump_hits (stats (costGuard w))) w.
Proof.
  unfold CostGuard.cacheGet.
  destruct (cache (costGuard w) !! key) as [e|] eqn:E.
  - destruct (Z.ltb_spec (now w) (expiry e)); intros Heq; inversion Heq.
    exists e. repeat split; auto.
  - intros Heq; inversion Heq.
Qed.

Lemma cacheGet_never_throws key w e w0 :
  CostGuard.cacheGet key w <> (Throw e, w0).
Proof.
  unfold CostGuard.cacheGet.
  destruct (cache (costGuard w) !! key) as [en|];
    [destruct (now w <? expiry en)|]; discriminate.
Qed.

(** *** The tiers *)

Lemma tryRulesFirst_world task input options w :
  snd (AIRouter.tryRulesFirst task input options w) = record_call RulesTier w.
Proof.
  unfold AIRouter.tryRulesFirst, bind, modify.
  destruct (String.eqb task "navigator"); [reflexivity|].
  destruct (String.eqb task "triage"); [reflexivity|].
  destruct (String.eqb task "careplan"); reflexivity.
Qed.

Lemma tryCheapModel_eq task input options w :
  AIRouter.tryCheapModel this task input options w =
    let w1 := record_call CheapTier w in
    if negb (JS.truthy (AIRouter.enabled this))
    then (Return AIRouter.uncertain_default, w1)
    else
      let n := JS.default_arg 100 (Config.AI_MAX_TOKENS_CHEAP (AIRouter.config this)) in
      let w0 := after_reset w1 in
      if canSpend n "cheap" w0
      then (Return (AIRouter.cheap_answer this task),
            set_stats (CostGuard.charge n "cheap" (stats (costGuard w0)))
              (set_now (now w0 + 500) w0))
      else (Throw (JS.Err (CostGuard.budget_message (String.append "cheap-" task) w0)),
            w0).
Proof.
  unfold AIRouter.tryCheapModel, bind, modify. cbn zeta.
  destruct (negb (JS.truthy (AIRouter.enabled this))); [reflexivity|].
  rewrite withBudget_eq. cbn zeta.
  destruct (canSpend _ _ _); reflexivity.
Qed.

Lemma tryExpensiveModel_eq task input options w :
  AIRouter.tryExpensiveModel this task input options w =
    let w1 := record_call ExpensiveTier w in
    if negb (JS.truthy (AIRouter.enabled this))
    then (Return AIRouter.uncertain_default, w1)
    else
      let n := JS.default_arg 100
                 (Config.AI_MAX_TOKENS_EXPENSIVE (AIRouter.config this)) in
      let w0 := after_reset w1 in
      if canSpend n "expensive" w0
      then (Return (AIRouter.expensive_answer this task),
            set_stats (CostGuard.charge n "expensive" (stats (costGuard w0)))
              (set_now (now w0 + 1000) w0))
      else (Throw (JS.Err (CostGuard.budget_message
                             (String.append "expensive-" task) w0)),
            w0).
Proof.
  unfold AIRouter.tryExpensiveModel, bind, modify. cbn zeta.
  destruct (negb (JS.truthy (AIRouter.enabled this))); [reflexivity|].
  rewrite withBudget_eq. cbn zeta.
  destruct (canSpend _ _ _); reflexivity.
Qed.

Lemma cheap_answer_settles task :
  AIRouter.shouldEscalate (AIRouter.cheap_answer this task) = false.
Proof. reflexivity. Qed.

(** *** The shape of [route] *)

Lemma route_eq task input options w :
  AIRouter.route this task input options w =
    match CostGuard.cacheGet (AIRouter.cacheKey task input options) w with
    | (Return (Some r), w0) => (Return r, w0)
    | (Return None, w0) =>
        match AIRouter.route_try this task input options
                (AIRouter.cacheKey task input options) w0 with
        | (Return r, w1) => (Return r, w1)
        | (Throw _, w1) => (Return (AIRouter.getFallbackResponse task input options), w1)
        end
    | (Throw e, w0) => (Throw e, w0)
    end.
Proof.
  unfold AIRouter.route, bind, try_catch, ret. cbn zeta.
  destruct (CostGuard.cacheGet _ w) as [[[r|]|e] w0]; reflexivity.
Qed.

(** The [try] block in closed form.  With the operations of the source
    the cheap tier, once paid for, answers at confidence 0.7, which no
    longer escalates. *)
Lemma route_try_eq task input options key w0 :
  AIRouter.route_try this task input options key w0 =
    let w1 := record_call RulesTier w0 in
    let ttl := Some (AIRouter.getTTL this task) in
    match fst (AIRouter.tryRulesFirst task input options w0) with
    | Throw e => (Throw e, w1)
    | Return r =>
        if AIRouter.shouldEscalate r && JS.truthy (AIRouter.enabled this)
        then
          let n := JS.default_arg 100
                     (Config.AI_MAX_TOKENS_CHEAP (AIRouter.config this)) in
          let w2 := after_reset (record_call CheapTier w1) in
          if canSpend n "cheap" w2
          then
            let w3 := set_stats (CostGuard.charge n "cheap" (stats (costGuard w2)))
                        (set_now (now w2 + 500) w2) in
            (Return (AIRouter.cheap_answer this task),
             snd (CostGuard.cacheSet key (AIRouter.cheap_answer this task) ttl w3))
          else
            (Throw (JS.Err (CostGuard.budget_message
                              (String.append "cheap-" task) w2)), w2)
        else (Return r, snd (CostGuard.cacheSet key r ttl w1))
    end.
Proof.
  unfold AIRouter.route_try, bind. cbn zeta.
  pose proof (tryRulesFirst_world task input options w0) as Hw.
  destruct (AIRouter.tryRulesFirst task input options w0) as [[r|e] w1].
  2: { cbn in *. subst. reflexivity. }
  cbn [fst snd] in *. subst w1.
  destruct (AIRouter.shouldEscalate r && JS.truthy (AIRouter.enabled this)) eqn:E.
  - apply andb_true_iff in E as [_ Hen].
    rewrite tryCheapModel_eq. cbn zeta. rewrite Hen. cbn [negb].
    destruct (canSpend _ _ _); [|reflexivity].
    rewrite cheap_answer_settles. reflexivity.
  - reflexivity.
Qed.

Lemma getTTL_nonzero task : AIRouter.getTTL this task <> 0.
Proof.
  unfold AIRouter.getTTL, JS.or_num.
  repeat match goal with
         | |- context [if ?b then _ else _] => destruct b eqn:?
         | |- context [match ?o with Some _ => _ | None => _ end] => destruct o
         end; try lia; try (apply Z.eqb_neq; assumption).
Qed.

Lemma cacheSet_lookup key r task w :
  cache (costGuard (snd (CostGuard.cacheSet key r (Some (AIRouter.getTTL this task)) w)))
    !! key
  = Some (mkEntry r
            (now (snd (CostGuard.cacheSet key r (Some (AIRouter.getTTL this task)) w))
             + AIRouter.getTTL this task * 1000)).
Proof.
  unfold CostGuard.cacheSet, JS.or_num. cbn.
  destruct (Z.eqb_spec (AIRouter.getTTL this task) 0) as [E|_].
  - exfalso. exact (getTTL_nonzero task E).
  - apply lookup_insert_eq.
Qed.

(** A normal return of the [try] block has stored its result under the
    key, expiring one TTL after the final clock. *)
Lemma route_try_stores task input options key w0 r w1 :
  AIRouter.route_try this task input options key w0 = (Return r, w1) ->
  cache (costGuard w1) !! key
  = Some (mkEntry r (now w1 + AIRouter.getTTL this task * 1000)).
Proof.
  rewrite route_try_eq. cbn zeta.
  destruct (fst (AIRouter.tryRulesFirst task input options w0)) as [r0|e];
    [|discriminate].
  destruct (AIRouter.shouldEscalate r0 && JS.truthy (AIRouter.enabled this)).
  - destruct (canSpend _ _ _); [|discriminate].
    intros Heq. split_outcome Heq. apply cacheSet_lookup.
  - intros Heq. split_outcome Heq. apply cacheSet_lookup.
Qed.


(** A live entry under the key is served as it is: no tier runs, and
    only the hit counter moves. *)
Lemma route_hit_eq task input options w e :
  cache (costGuard w) !! AIRouter.cacheKey task input options = Some e ->
  now w < expiry e ->
  AIRouter.route this task input options w
  = (Return (data e), set_stats (CostGuard.bump_hits (stats (costGuard w))) w).
Proof.
  intros E Hlt. rewrite route_eq, (cacheGet_live _ _ _ E Hlt). reflexivity.
Qed.

(** A call that does not enter the [catch] clause returns a result that
    the cache then holds under the key. *)
Lemma route_ok_caches task input options w :
  route_ok this task input options w = true ->
  exists r1 w1 e,
    AIRouter.route this task input options w = (Return r1, w1)
    /\ cache (costGuard w1) !! AIRouter.cacheKey task input options = Some e
    /\ data e = r1
    /\ (fst (CostGuard.cacheGet (AIRouter.cacheKey task input options) w) = Return None ->
        expiry e = now w1 + AIRouter.getTTL this task * 1000).
Proof.
  unfold route_ok. rewrite route_eq. cbn zeta.
  destruct (CostGuard.cacheGet _ w) as [[[r|]|e] w0] eqn:Hget; [| |discriminate].
  - intros _. apply cacheGet_hit_inv in Hget as (e & He & Hd & Hlt & ->).
    exists r, (set_stats (CostGuard.bump_hits (stats (costGuard w))) w), e.
    repeat split; auto. cbn. discriminate.
  - destruct (AIRouter.route_try this task input options _ w0) as [[r|e] w1] eqn:Htry;
      [|discriminate].
    intros _. exists r, w1, (mkEntry r (now w1 + AIRouter.getTTL this task * 1000)).
    repeat split; auto.
    eapply route_try_stores; eauto.
Qed.

(** *** What the rules tier settles *)

Lemma shouldEscalate_iff r :
  AIRouter.shouldEscalate r = true
  <-> uncertain r = true \/ (confidence r < 0.7)%Q.
Proof.
  unfold AIRouter.shouldEscalate, Qltb. rewrite orb_true_iff, negb_true_iff.
  split; (intros [Hu|Hc]; [left; exact Hu | right]).
  - apply Qnot_le_lt. intros Hle. apply Qle_bool_iff in Hle. congruence.
  - destruct (Qle_bool 0.7 (confidence r)) eqn:E; [|reflexivity].
    apply Qle_bool_iff in E. exfalso. exact (Qlt_not_le _ _ Hc E).
Qed.

Lemma confident_settles r :
  uncertain r = false -> (0.7 <= confidence r)%Q ->
  AIRouter.shouldEscalate r = false.
Proof.
  intros Hu Hc. destruct (AIRouter.shouldEscalate r) eqn:E; [|reflexivity].
  apply shouldEscalate_iff in E as [E|E]; [congruence|].
  exfalso. exact (Qlt_not_le _ _ E Hc).
Qed.

(** When the rules tier's result does not escalate, or the AI layer is
    off, the [try] block stores and returns that result. *)
Lemma route_try_settled task input options key w0 r :
  fst (AIRouter.tryRulesFirst task input options w0) = Return r ->
  AIRouter.shouldEscalate r && JS.truthy (AIRouter.enabled this) = false ->
  AIRouter.route_try this task input options key w0
  = (Return r,
     snd (CostGuard.cacheSet key r (Some (AIRouter.getTTL this task))
            (record_call RulesTier w0))).
Proof.
  intros Hr Hs. rewrite route_try_eq. cbn zeta. rewrite Hr, Hs. reflexivity.
Qed.

Lemma triage_settles input options :
  AIRouter.shouldEscalate (AIRouter.triageRules input options) = false.
Proof.
  unfold AIRouter.triageRules. cbn zeta.
  repeat match goal with
         | |- context [if ?b then _ else _] => destruct b
         end; reflexivity.
Qed.

Lemma rules_settle_careplan input options w0 :
  exists r, fst (AIRouter.tryRulesFirst "careplan" input options w0) = Return r
            /\ AIRouter.shouldEscalate r = false.
Proof. eexists. split; reflexivity. Qed.

(** The rules tier throws on every triage request. *)
Lemma rules_throw_triage input options w0 :
  fst (AIRouter.tryRulesFirst "triage" input options w0)
  = Throw (JS.TypeErr "this.triageRules is not a function").
Proof. reflexivity. Qed.

(** Care-plan calls never enter the [catch] clause. *)
Lemma route_ok_careplan input options w :
  route_ok this "careplan" input options w = true.
Proof.
  unfold route_ok. cbn zeta.
  destruct (CostGuard.cacheGet _ w) as [[[r|]|e] w0] eqn:Hget.
  - reflexivity.
  - destruct (rules_settle_careplan input options w0) as (r & Hr & Hs).
    rewrite (route_try_settled _ _ _ _ _ _ Hr) by (rewrite Hs; reflexivity).
    reflexivity.
  - exfalso. exact (cacheGet_never_throws _ _ _ _ Hget).
Qed.

(** A triage call that misses the cache ends in the [catch] clause: the
    triage fallback is returned and the world is the one the lookup left,
    with the rules call recorded. *)
Lemma route_triage_miss input options w w0 :
  CostGuard.cacheGet (AIRouter.cacheKey "triage" input options) w = (Return None, w0) ->
  AIRouter.route this "triage" input options w
  = (Return AIRouter.fallback_triage, record_call RulesTier w0).
Proof.
  intros Hget. rewrite route_eq, Hget, route_try_eq. reflexivity.
Qed.


(** *** The claims about [route] *)

(** C1, on the code.  A triage call for the client [{needs: ["housing"],
    urgency: "critical"}] on an empty cache does not get the urgent
    housing assessment that the method [triageRules] computes for it: the
    call [this.triageRules(...)] throws, and [route] returns the triage
    fallback (priority "medium", the two general recommendations,
    confidence 0.5, source "fallback") and stores nothing. *)
Theorem route_triage_critical_housing_falls_back options c w :
  needs c = Some ["housing"] ->
  urgency c = Some "critical" ->
  cache (costGuard w) = ∅ ->
  (exists r w',
      AIRouter.route this "triage" (InObj c) options w = (Return r, w')
      /\ priority r = Some "medium"
      /\ recommendations r
         = Some ["General assessment needed"; "Schedule intake appointment"]
      /\ confidence r = 0.5%Q
      /\ source r = Some "fallback"
      /\ calls w' = (calls w ++ [RulesTier])%list
      /\ cache (costGuard w') = ∅)
  /\ priority (AIRouter.triageRules (InObj c) options) = Some "urgent"
  /\ recommendations (AIRouter.triageRules (InObj c) options)
     = Some ["Emergency shelter placement needed within 24 hours";
             "Rapid rehousing assessment required";
             "Connect with housing navigator immediately"]
  /\ confidence (AIRouter.triageRules (InObj c) options) = 0.95%Q
  /\ source (AIRouter.triageRules (InObj c) options) = Some "rules".
Proof.
  intros Hn Hu Hc. split.
  - rewrite (route_triage_miss _ _ _ _
               (cacheGet_absent _ w ltac:(rewrite Hc; apply lookup_empty))).
    eexists _, _. split; [reflexivity|].
    repeat split; try reflexivity. cbn. exact Hc.
  - unfold AIRouter.triageRules. cbn. rewrite Hn, Hu. cbn. repeat split.
Qed.

(** C8.  Escalation monotonicity: the escalation predicate holds exactly
    for a result marked uncertain or of confidence below 0.7; and when, on
    a cache miss, the rules tier returns a result that is not marked
    uncertain and has confidence at least 0.7, [route] returns that result
    after calling the rules tier only: no cheap or expensive call is made,
    no token is spent and no time passes. *)
Theorem confident_rules_never_escalate task input options w w0 r w1 :
  CostGuard.cacheGet (AIRouter.cacheKey task input options) w = (Return None, w0) ->
  AIRouter.tryRulesFirst task input options w0 = (Return r, w1) ->
  uncertain r = false ->
  (0.7 <= confidence r)%Q ->
  (forall r', AIRouter.shouldEscalate r' = true
              <-> uncertain r' = true \/ (confidence r' < 0.7)%Q)
  /\ exists w',
      AIRouter.route this task input options w = (Return r, w')
      /\ calls w' = (calls w ++ [RulesTier])%list
      /\ cheapCalls (stats (costGuard w')) = cheapCalls (stats (costGuard w))
      /\ expensiveCalls (stats (costGuard w')) = expensiveCalls (stats (costGuard w))
      /\ totalTokens (stats (costGuard w')) = totalTokens (stats (costGuard w))
      /\ dailyTokens (stats (costGuard w')) = dailyTokens (stats (costGuard w))
      /\ now w' = now w.
Proof.
  intros Hget Hrules Hu Hc. split; [exact shouldEscalate_iff|].
  assert (Hr : fst (AIRouter.tryRulesFirst task input options w0) = Return r)
    by (rewrite Hrules; reflexivity).
  rewrite route_eq, Hget.
  rewrite (route_try_settled _ _ _ _ _ _ Hr)
    by (rewrite (confident_settles r Hu Hc); reflexivity).
  eexists. split; [reflexivity|].
  rewrite (cacheGet_miss_inv _ _ _ Hget).
  repeat split; reflexivity.
Qed.


(** C7.  Cache idempotence: when a [route] call succeeds (it is served
    from the cache or by the tiers, not by the [catch] clause), the cache
    then holds its result under the request's key -- for a computed result
    until one TTL after the clock at the end of the call -- and a second
    call for the same task, input and options at any time before that
    expiry returns the identical result, calls no tier, spends no token,
    and changes only the hit counter. *)
Theorem route_cache_idempotent task input options w :
  route_ok this task input options w = true ->
  exists r1 w1 e,
    AIRouter.route this task input options w = (Return r1, w1)
    /\ cache (costGuard w1) !! AIRouter.cacheKey task input options = Some e
    /\ data e = r1
    /\ (fst (CostGuard.cacheGet (AIRouter.cacheKey task input options) w) = Return None ->
        expiry e = now w1 + AIRouter.getTTL this task * 1000)
    /\ forall t2, t2 < expiry e ->
         exists w2,
           AIRouter.route this task input options (set_now t2 w1) = (Return r1, w2)
           /\ calls w2 = calls w1
           /\ dailyTokens (stats (costGuard w2)) = dailyTokens (stats (costGuard w1))
           /\ totalTokens (stats (costGuard w2)) = totalTokens (stats (costGuard w1))
           /\ cheapCalls (stats (costGuard w2)) = cheapCalls (stats (costGuard w1))
           /\ expensiveCalls (stats (costGuard w2)) = expensiveCalls (stats (costGuard w1))
           /\ cache (costGuard w2) = cache (costGuard w1)
           /\ cacheHits (stats (costGuard w2)) = cacheHits (stats (costGuard w1)) + 1.
Proof.
  intros Hok.
  destruct (route_ok_caches _ _ _ _ Hok) as (r1 & w1 & e & Hroute & Hentry & Hdata & Hexp).
  exists r1, w1, e. repeat split; auto.
  intros t2 Hlt. eexists. split.
  - rewrite (route_hit_eq task input options (set_now t2 w1) e Hentry Hlt).
    rewrite Hdata. reflexivity.
  - repeat split; reflexivity.
Qed.

(** C3, as amended.  Two client records given with the same task and
    options get the same cache key, because an object input is
    interpolated in the key as "[object Object]".  Whenever the call for
    the first client succeeds (it is not answered by the [catch] clause),
    as every care-plan call does, a call for the second client before the
    entry expires returns the result computed for the first one, without
    calling any tier. *)
Theorem object_inputs_share_cache_entry task options c1 c2 :
  AIRouter.cacheKey task (InObj c1) options = AIRouter.cacheKey task (InObj c2) options
  /\ (forall w, task = "careplan" ->
                route_ok this task (InObj c1) options w = true)
  /\ (forall w,
        route_ok this task (InObj c1) options w = true ->
        exists r1 w1 e,
          AIRouter.route this task (InObj c1) options w = (Return r1, w1)
          /\ cache (costGuard w1) !! AIRouter.cacheKey task (InObj c1) options = Some e
          /\ data e = r1
          /\ (fst (CostGuard.cacheGet (AIRouter.cacheKey task (InObj c1) options) w)
              = Return None ->
              expiry e = now w1 + AIRouter.getTTL this task * 1000)
          /\ forall t2, t2 < expiry e ->
               exists w2,
                 AIRouter.route this task (InObj c2) options (set_now t2 w1)
                 = (Return r1, w2)
                 /\ calls w2 = calls w1).
Proof.
  split; [reflexivity|]. split.
  - intros w ->. apply route_ok_careplan.
  - intros w Hok.
    destruct (route_ok_caches _ _ _ _ Hok)
      as (r1 & w1 & e & Hroute & Hentry & Hdata & Hexp).
    exists r1, w1, e. repeat split; auto.
    intros t2 Hlt. eexists. split.
    + assert (Hentry2 : cache (costGuard (set_now t2 w1))
                          !! AIRouter.cacheKey task (InObj c2) options = Some e)
        by exact Hentry.
      rewrite (route_hit_eq task (InObj c2) options (set_now t2 w1) e Hentry2 Hlt).
      rewrite Hdata. reflexivity.
    + reflexivity.
Qed.

End RouterProperties.

(** ** Escalation, the budget and the AI switch *)

Section EscalationProperties.
Context `{Runtime}.

Lemma navigator_uncertain_inv q options r :
  AIRouter.navigatorRules (InStr q) options = Return r ->
  uncertain r = true ->
  r = AIRouter.navigator_uncertain.
Proof.
  unfold AIRouter.navigatorRules. cbn zeta.
  destruct (find _ AIRouter.faqRules) as [[category answer]|].
  - intros [= <-]. discriminate.
  - destruct (_ || _ || _); intros [= <-]; [discriminate | reflexivity].
Qed.

Lemma disabled_when_switched_off cfg :
  Config.AI_ENABLE cfg = JS.Bool false ->
  JS.truthy (AIRouter.enabled (AIRouter.new cfg)) = false.
Proof. intros E. cbn. unfold JS.and. rewrite E. reflexivity. Qed.

(** C2, as amended.  With [AI_ENABLE] false, a navigator query that the
    rules tier cannot resolve and that misses the cache is answered with
    the rules tier's own uncertain result (marked uncertain, confidence
    0.4, the clarifying prompt, no source); [route] returns it normally,
    stores it under the FAQ TTL, and calls no other tier.  The [catch]
    clause is not entered and the result is not the fallback response. *)
Theorem navigator_unresolved_ai_disabled cfg q options w r :
  Config.AI_ENABLE cfg = JS.Bool false ->
  AIRouter.navigatorRules (InStr q) options = Return r ->
  uncertain r = true ->
  fst (CostGuard.cacheGet (AIRouter.cacheKey "navigator" (InStr q) options) w)
  = Return None ->
  exists w',
    AIRouter.route (AIRouter.new cfg) "navigator" (InStr q) options w = (Return r, w')
    /\ r = AIRouter.navigator_uncertain
    /\ source r = None
    /\ r <> AIRouter.getFallbackResponse "navigator" (InStr q) options
    /\ source r <> Some "fallback"
    /\ route_ok (AIRouter.new cfg) "navigator" (InStr q) options w = true
    /\ cache (costGuard w') !! AIRouter.cacheKey "navigator" (InStr q) options
       = Some (mkEntry r
                 (now w + JS.or_num (Config.CACHE_TTL_FAQ cfg) 86400 * 1000))
    /\ calls w' = (calls w ++ [RulesTier])%list.
Proof.
  intros Hoff Hrules Hu Hmiss.
  pose proof (navigator_uncertain_inv _ _ _ Hrules Hu) as ->.
  destruct (CostGuard.cacheGet (AIRouter.cacheKey "navigator" (InStr q) options) w)
    as [o w0] eqn:Hget.
  cbn [fst] in Hmiss. subst o.
  assert (Hr : fst (AIRouter.tryRulesFirst "navigator" (InStr q) options w0)
               = Return AIRouter.navigator_uncertain).
  { cbn. exact Hrules. }
  assert (Htry := route_try_settled (AIRouter.new cfg) "navigator" (InStr q) options
                    (AIRouter.cacheKey "navigator" (InStr q) options) w0 _ Hr
                    ltac:(rewrite (disabled_when_switched_off cfg Hoff);
                          apply andb_false_r)).
  rewrite route_eq, Hget, Htry.
  eexists. split; [reflexivity|].
  split; [reflexivity|]. split; [reflexivity|].
  split; [discriminate|]. split; [discriminate|].
  split.
  { unfold route_ok. cbn zeta. rewrite Hget, Htry. reflexivity. }
  rewrite (cacheGet_miss_inv _ _ _ Hget).
  split.
  - rewrite (cacheSet_lookup (AIRouter.new cfg)). reflexivity.
  - reflexivity.
Qed.

(** C9, on the code.  With [AI_ENABLE] true and a credential configured,
    the [enabled] field of the object [getStats] returns is the credential
    string itself, not a boolean. *)
Theorem getStats_enabled_is_the_credential key ttlFaq ttlTriage cheap expensive
    daily maxCheap maxExpensive ttl w :
  exists report w',
    AIRouter.getStats
      (AIRouter.new
         (Config.mk (JS.Bool true) (JS.Str key) ttlFaq ttlTriage cheap expensive
            daily maxCheap maxExpensive ttl)) w
    = (Return report, w')
    /\ AIRouter.report_enabled report = JS.Str key.
Proof.
  unfold AIRouter.getStats, CostGuard.getStats, bind, gets, ret.
  rewrite reset_returns. eexists _, _. split; reflexivity.
Qed.

(** *** Cheap-tier calls against the daily ceiling *)

Section CheapRuns.
Variable this : AIRouter.t.
Variable options : JS.Json.

(** The cost of a cheap-tier call: the estimate [tryCheapModel] passes. *)
Let cost : Z := JS.default_arg 100 (Config.AI_MAX_TOKENS_CHEAP (AIRouter.config this)).

Let key (q : string) : string := AIRouter.cacheKey "navigator" (InStr q) options.

Hypothesis Henabled : JS.truthy (AIRouter.enabled this) = true.
Hypothesis Hcost : 0 < cost.

(** An unresolved query that misses the cache while the budget allows
    one more cheap call: the cheap tier answers and is charged. *)
Lemma route_cheap_paid q w :
  AIRouter.navigatorRules (InStr q) options = Return AIRouter.navigator_uncertain ->
  cache (costGuard w) !! key q = None ->
  lastResetDate (stats (costGuard w)) = toDateString (now w) ->
  cost <= maxCheapTokens (config (costGuard w)) ->
  dailyTokens (stats (costGuard w)) + cost <= maxDailyTokens (config (costGuard w)) ->
  exists w',
    AIRouter.route this "navigator" (InStr q) options w
    = (Return (AIRouter.cheap_answer this "navigator"), w')
    /\ dailyTokens (stats (costGuard w')) = dailyTokens (stats (costGuard w)) + cost
    /\ cheapCalls (stats (costGuard w')) = cheapCalls (stats (costGuard w)) + 1
    /\ now w' = now w + 500
    /\ config (costGuard w') = config (costGuard w)
    /\ lastResetDate (stats (costGuard w')) = lastResetDate (stats (costGuard w))
    /\ (forall k, k <> key q -> cache (costGuard w') !! k = cache (costGuard w) !! k).
Proof.
  intros Hrules Hfresh Hday Hc Hd.
  rewrite route_eq. fold (key q). rewrite (cacheGet_absent _ _ Hfresh).
  rewrite route_try_eq. cbn zeta.
  replace (fst (AIRouter.tryRulesFirst "navigator" (InStr q) options _))
    with (Return AIRouter.navigator_uncertain) by (cbn; symmetry; exact Hrules).
  rewrite Henabled.
  change (AIRouter.shouldEscalate AIRouter.navigator_uncertain && true) with true.
  cbn match.
  rewrite reset_same_day by exact Hday.
  fold cost.
  replace (canSpend cost "cheap" _) with true.
  2: { symmetry. unfold canSpend, perTierCeiling. cbn.
       apply andb_true_iff. split; apply Z.leb_le; assumption. }
  eexists. split; [reflexivity|].
  cbn. repeat split; try reflexivity.
  intros k Hk. apply lookup_insert_ne. congruence.
Qed.

(** The same query once the daily ceiling would be exceeded: the budget
    error is absorbed, the fallback is returned, nothing is charged. *)
Lemma route_cheap_rejected q w :
  AIRouter.navigatorRules (InStr q) options = Return AIRouter.navigator_uncertain ->
  cache (costGuard w) !! key q = None ->
  lastResetDate (stats (costGuard w)) = toDateString (now w) ->
  maxDailyTokens (config (costGuard w)) < dailyTokens (stats (costGuard w)) + cost ->
  exists w',
    AIRouter.route this "navigator" (InStr q) options w
    = (Return AIRouter.fallback_navigator, w')
    /\ dailyTokens (stats (costGuard w')) = dailyTokens (stats (costGuard w))
    /\ cheapCalls (stats (costGuard w')) = cheapCalls (stats (costGuard w))
    /\ totalTokens (stats (costGuard w')) = totalTokens (stats (costGuard w))
    /\ cache (costGuard w') = cache (costGuard w).
Proof.
  intros Hrules Hfresh Hday Hd.
  rewrite route_eq. fold (key q). rewrite (cacheGet_absent _ _ Hfresh).
  rewrite route_try_eq. cbn zeta.
  replace (fst (AIRouter.tryRulesFirst "navigator" (InStr q) options _))
    with (Return AIRouter.navigator_uncertain) by (cbn; symmetry; exact Hrules).
  rewrite Henabled.
  change (AIRouter.shouldEscalate AIRouter.navigator_uncertain && true) with true.
  cbn match.
  rewrite reset_same_day by exact Hday.
  fold cost.
  replace (canSpend cost "cheap" _) with false.
  2: { symmetry. unfold canSpend, perTierCeiling. cbn.
       apply andb_false_iff. right. apply Z.leb_gt. assumption. }
  eexists. split; [reflexivity|].
  cbn. repeat split; reflexivity.
Qed.

(** As long as the ceiling is not reached, every query of a run of
    unresolved, pairwise different, uncached queries is answered by the
    cheap tier. *)
Lemma run_within_budget qs : forall w,
  Forall (fun q => AIRouter.navigatorRules (InStr q) options
                   = Return AIRouter.navigator_uncertain) qs ->
  NoDup (map key qs) ->
  Forall (fun k => cache (costGuard w) !! k = None) (map key qs) ->
  (forall t, now w <= t <= now w + 500 * Z.of_nat (length qs) ->
             toDateString t = lastResetDate (stats (costGuard w))) ->
  cost <= maxCheapTokens (config (costGuard w)) ->
  dailyTokens (stats (costGuard w)) + Z.of_nat (length qs) * cost
  <= maxDailyTokens (config (costGuard w)) ->
  exists w',
    route_queries this qs options w
    = (Return (repeat (AIRouter.cheap_answer this "navigator") (length qs)), w')
    /\ dailyTokens (stats (costGuard w'))
       = dailyTokens (stats (costGuard w)) + Z.of_nat (length qs) * cost
    /\ cheapCalls (stats (costGuard w'))
       = cheapCalls (stats (costGuard w)) + Z.of_nat (length qs)
    /\ now w' = now w + 500 * Z.of_nat (length qs)
    /\ config (costGuard w') = config (costGuard w)
    /\ lastResetDate (stats (costGuard w')) = lastResetDate (stats (costGuard w))
    /\ (forall k, k ∉ map key qs ->
                  cache (costGuard w') !! k = cache (costGuard w) !! k).
Proof.
  induction qs as [|q rest IH]; intros w Hun Hnd Hfresh Hday Hc Hd.
  - exists w. cbn. repeat split; try lia; reflexivity.
  - cbn [length map] in *.
    apply Forall_cons in Hun as [Hq Hun].
    apply NoDup_cons in Hnd as [Hnotin Hnd].
    apply Forall_cons in Hfresh as [Hkq Hfresh].
    assert (Hrest : 0 <= Z.of_nat (length rest) * cost)
      by (apply Z.mul_nonneg_nonneg; lia).
    rewrite Nat2Z.inj_succ, Z.mul_succ_l in Hd.
    destruct (route_cheap_paid q w Hq Hkq)
      as (w1 & Hroute & Hd1 & Hc1 & Hn1 & Hcfg1 & Hl1 & Hcache1).
    + symmetry. apply Hday. lia.
    + exact Hc.
    + lia.
    + destruct (IH w1) as (w2 & Hrun & Hd2 & Hc2 & Hn2 & Hcfg2 & Hl2 & Hcache2).
      * exact Hun.
      * exact Hnd.
      * apply Forall_forall. intros k Hk.
        rewrite Hcache1.
        -- rewrite Forall_forall in Hfresh. apply Hfresh. exact Hk.
        -- intros ->. apply Hnotin. exact Hk.
      * intros t Ht. rewrite Hl1. apply Hday. lia.
      * rewrite Hcfg1. exact Hc.
      * rewrite Hcfg1, Hd1. lia.
      * exists w2. cbn [route_queries]. unfold bind at 1. rewrite Hroute.
        unfold bind at 1. rewrite Hrun. cbn [repeat]. unfold ret.
        repeat split.
        -- rewrite Hd2, Hd1. lia.
        -- rewrite Hc2, Hc1. lia.
        -- rewrite Hn2, Hn1. lia.
        -- congruence.
        -- congruence.
        -- intros k Hk. apply not_elem_of_cons in Hk as [Hne Hk].
           rewrite Hcache2, Hcache1 by assumption. reflexivity.
Qed.

Lemma route_queries_app qs1 : forall qs2 w,
  route_queries this (qs1 ++ qs2) options w
  = match route_queries this qs1 options w with
    | (Return rs1, w1) =>
        match route_queries this qs2 options w1 with
        | (Return rs2, w2) => (Return (rs1 ++ rs2)%list, w2)
        | (Throw e, w2) => (Throw e, w2)
        end
    | (Throw e, w1) => (Throw e, w1)
    end.
Proof.
  induction qs1 as [|q rest IH]; intros qs2 w.
  - cbn. destruct (route_queries this qs2 options w) as [[rs|e] w2]; reflexivity.
  - cbn [app route_queries]. unfold bind, ret.
    destruct (AIRouter.route this "navigator" (InStr q) options w) as [[r|e] w1];
      [|reflexivity].
    rewrite IH.
    destruct (route_queries this rest options w1) as [[rs1|e] w2]; [|reflexivity].
    destruct (route_queries this qs2 options w2) as [[rs2|e] w3]; reflexivity.
Qed.

End CheapRuns.

(** C5.  [canMakeCall] performs the lazy reset check and then answers
    true exactly when the estimate is within the tier's ceiling and the
    daily usage plus the estimate is within the daily ceiling.
    Consequently, with daily ceiling [T] and a cheap-tier cost [c]
    (positive and within the cheap ceiling), starting from zero usage on
    one day, of [floor(T/c) + 1] unresolved navigator queries that all
    miss the cache the first [floor(T/c)] are answered by the cheap tier
    and charged, and the last one is rejected by the guard; [route]
    returns the fallback for it instead of throwing. *)
Theorem budget_enforcement :
  (forall tokenCount type w,
      exists b,
        CostGuard.canMakeCall tokenCount type w = (Return b, after_reset w)
        /\ (b = true <->
            tokenCount <= perTierCeiling type (config (costGuard (after_reset w)))
            /\ dailyTokens (stats (costGuard (after_reset w))) + tokenCount
               <= maxDailyTokens (config (costGuard (after_reset w)))))
  /\ (forall this options qs q w,
        let c := JS.default_arg 100
                   (Config.AI_MAX_TOKENS_CHEAP (AIRouter.config this)) in
        let T := maxDailyTokens (config (costGuard w)) in
        let n := Z.to_nat (T / c) in
        let key := fun q => AIRouter.cacheKey "navigator" (InStr q) options in
        JS.truthy (AIRouter.enabled this) = true ->
        0 < c ->
        c <= maxCheapTokens (config (costGuard w)) ->
        0 <= T ->
        dailyTokens (stats (costGuard w)) = 0 ->
        (forall t, now w <= t <= now w + 500 * Z.of_nat n ->
                   toDateString t = lastResetDate (stats (costGuard w))) ->
        length qs = n ->
        Forall (fun q => AIRouter.navigatorRules (InStr q) options
                         = Return AIRouter.navigator_uncertain) (qs ++ [q]) ->
        NoDup (map key (qs ++ [q])) ->
        Forall (fun k => cache (costGuard w) !! k = None) (map key (qs ++ [q])) ->
        exists w',
          route_queries this (qs ++ [q]) options w
          = (Return (repeat (AIRouter.cheap_answer this "navigator") n
                     ++ [AIRouter.fallback_navigator])%list, w')
          /\ dailyTokens (stats (costGuard w')) = Z.of_nat n * c
          /\ cheapCalls (stats (costGuard w'))
             = cheapCalls (stats (costGuard w)) + Z.of_nat n).
Proof.
  split.
  - intros tokenCount type w.
    exists (canSpend tokenCount type (after_reset w)).
    split; [apply canMakeCall_eq|].
    unfold canSpend. rewrite andb_true_iff, !Z.leb_le. reflexivity.
  - intros this options qs q w c T n key Hen Hc Hceil HT Hzero Hday Hlen Hun Hnd Hfresh.
    assert (Hn : Z.of_nat n = T / c).
    { subst n. apply Z2Nat.id. apply Z.div_pos; lia. }
    assert (Hlow : Z.of_nat n * c <= T).
    { rewrite Hn, Z.mul_comm. apply Z.mul_div_le. lia. }
    assert (Hhigh : T < Z.of_nat n * c + c).
    { rewrite Hn. pose proof (Z.mul_succ_div_gt T c Hc) as Hgt. lia. }
    rewrite map_app in Hnd, Hfresh. cbn [map] in Hnd, Hfresh.
    apply Forall_app in Hun as [Hun Hq].
    apply Forall_app in Hfresh as [Hfresh Hfq].
    apply NoDup_app in Hnd as (Hnd & Hdisj & _).
    apply Forall_inv in Hq. apply Forall_inv in Hfq.
    destruct (run_within_budget this options Hen Hc qs w)
      as (w1 & Hrun & Hd1 & Hc1 & Hn1 & Hcfg1 & Hl1 & Hcache1);
      try assumption.
    + rewrite Hlen. exact Hday.
    + rewrite Hlen, Hzero. fold T. lia.
    + destruct (route_cheap_rejected this options Hen q w1)
        as (w2 & Hroute & Hd2 & Hc2 & _ & _).
      * exact Hq.
      * rewrite Hcache1; [exact Hfq|].
        intros Hin. apply (Hdisj _ Hin). left.
      * rewrite Hl1, Hn1, Hlen. symmetry. apply Hday. lia.
      * rewrite Hcfg1, Hd1, Hlen, Hzero. fold T. fold c. lia.
      * exists w2. rewrite route_queries_app, Hrun.
        cbn [route_queries]. unfold bind, ret. rewrite Hroute.
        rewrite Hlen. split; [reflexivity|]. split.
        -- rewrite Hd2, Hd1, Hlen, Hzero. fold c. lia.
        -- rewrite Hc2, Hc1, Hlen. reflexivity.
Qed.

End EscalationProperties.

(** ** The properties on concrete inputs *)

Section Examples.
Local Existing Instance Sample.runtime.

Lemma route_triage_critical_housing_falls_back_witness :
  exists r w',
    AIRouter.route (AIRouter.new Sample.config_off) "triage"
      (InObj Sample.critical_housing_client) Sample.triage_options
      (Sample.fresh Sample.config_off 0) = (Return r, w')
    /\ priority r = Some "medium"
    /\ recommendations r
       = Some ["General assessment needed"; "Schedule intake appointment"]
    /\ confidence r = 0.5%Q
    /\ source r = Some "fallback"
    /\ calls w' = [RulesTier]
    /\ cache (costGuard w') = ∅.
Proof.
  apply (route_triage_critical_housing_falls_back (AIRouter.new Sample.config_off)
           Sample.triage_options Sample.critical_housing_client
           (Sample.fresh Sample.config_off 0)); reflexivity.
Defined.

(** C2, the claim as stated fails: with the AI layer off, an unresolved
    navigator query gets the uncertain result of the rules tier, not the
    fallback response. *)
Lemma navigator_ai_disabled_returns_uncertain :
  exists r w',
    AIRouter.route (AIRouter.new Sample.config_off) "navigator"
      (InStr "I lost my wallet") Sample.navigator_options
      (Sample.fresh Sample.config_off 0) = (Return r, w')
    /\ uncertain r = true
    /\ source r <> Some "fallback"
    /\ r <> AIRouter.getFallbackResponse "navigator" (InStr "I lost my wallet")
              Sample.navigator_options.
Proof.
  exists AIRouter.navigator_uncertain. eexists. split.
  - rewrite route_eq, cacheGet_absent by apply lookup_empty.
    rewrite (route_try_settled _ _ _ _ _ _ AIRouter.navigator_uncertain)
      by reflexivity.
    reflexivity.
  - repeat split; discriminate.
Qed.

Lemma navigator_unresolved_ai_disabled_witness :
  exists w',
    AIRouter.route (AIRouter.new Sample.config_off) "navigator"
      (InStr "I lost my wallet") Sample.navigator_options
      (Sample.fresh Sample.config_off 0)
    = (Return AIRouter.navigator_uncertain, w')
    /\ calls w' = [RulesTier].
Proof.
  destruct (navigator_unresolved_ai_disabled Sample.config_off "I lost my wallet"
              Sample.navigator_options (Sample.fresh Sample.config_off 0)
              AIRouter.navigator_uncertain)
    as (w' & Hroute & _ & _ & _ & _ & _ & _ & Hcalls);
    [reflexivity | reflexivity | reflexivity | reflexivity |].
  exists w'. split; [exact Hroute | exact Hcalls].
Defined.

(** C3, the claim as stated fails: a call that is answered by the [catch]
    clause stores nothing, so the next call for another client is not
    served a cached result but goes through the rules tier again.  This is
    so for every triage call, and for a navigator call given a client
    record. *)
Lemma fallback_calls_share_no_cached_result :
  (exists r1 w1 r2 w2,
      AIRouter.route (AIRouter.new Sample.config_off) "triage"
        (InObj Sample.critical_housing_client) Sample.triage_options
        (Sample.fresh Sample.config_off 0) = (Return r1, w1)
      /\ cache (costGuard w1)
           !! AIRouter.cacheKey "triage" (InObj Sample.critical_housing_client)
                Sample.triage_options = None
      /\ AIRouter.route (AIRouter.new Sample.config_off) "triage"
           (InObj Sample.low_food_client) Sample.triage_options (set_now 1000 w1)
         = (Return r2, w2)
      /\ calls w2 = (calls w1 ++ [RulesTier])%list
      /\ cacheHits (stats (costGuard w2)) = 0)
  /\ (exists r1 w1 r2 w2,
        AIRouter.route (AIRouter.new Sample.config_off) "navigator"
          (InObj Sample.critical_housing_client) Sample.navigator_options
          (Sample.fresh Sample.config_off 0) = (Return r1, w1)
        /\ cache (costGuard w1)
             !! AIRouter.cacheKey "navigator" (InObj Sample.critical_housing_client)
                  Sample.navigator_options = None
        /\ AIRouter.route (AIRouter.new Sample.config_off) "navigator"
             (InObj Sample.low_food_client) Sample.navigator_options (set_now 1000 w1)
           = (Return r2, w2)
        /\ calls w2 = (calls w1 ++ [RulesTier])%list
        /\ cacheHits (stats (costGuard w2)) = 0).
Proof.
  split.
  - eexists _, _, _, _. split.
    { rewrite route_eq, cacheGet_absent by apply lookup_empty.
      rewrite route_try_eq. reflexivity. }
    split; [reflexivity|]. split.
    { rewrite route_eq, cacheGet_absent by apply lookup_empty.
      rewrite route_try_eq. reflexivity. }
    split; reflexivity.
  - eexists _, _, _, _. split.
    { rewrite route_eq, cacheGet_absent by apply lookup_empty.
      rewrite route_try_eq. reflexivity. }
    split; [reflexivity|]. split.
    { rewrite route_eq, cacheGet_absent by apply lookup_empty.
      rewrite route_try_eq. reflexivity. }
    split; reflexivity.
Qed.

Lemma object_inputs_share_cache_entry_witness :
  exists r1 w1 w2,
    AIRouter.route (AIRouter.new Sample.config_off) "careplan"
      (InObj Sample.employment_client) Sample.triage_options
      (Sample.fresh Sample.config_off 0)
    = (Return r1, w1)
    /\ goals r1 = Some ["Obtain sustainable employment"; "Increase job skills"]
    /\ AIRouter.route (AIRouter.new Sample.config_off) "careplan"
         (InObj Sample.low_food_client) Sample.triage_options
         (set_now 3600000 w1)
       = (Return r1, w2).
Proof.
  destruct (object_inputs_share_cache_entry (AIRouter.new Sample.config_off)
              "careplan" Sample.triage_options
              Sample.employment_client Sample.low_food_client)
    as (_ & Hok & Hshare).
  destruct (Hshare (Sample.fresh Sample.config_off 0) (Hok _ eq_refl))
    as (r1 & w1 & e & Hroute & _ & _ & Hexp & Hagain).
  assert (Hfirst : goals r1 = Some ["Obtain sustainable employment"; "Increase job skills"]
                   /\ now w1 = 0).
  { rewrite route_eq, cacheGet_absent in Hroute by apply lookup_empty.
    rewrite route_try_eq in Hroute. cbn in Hroute.
    injection Hroute as <- <-. split; reflexivity. }
  destruct Hfirst as [Hgoals Hnow].
  destruct (Hagain 3600000) as (w2 & Hsecond & _).
  - rewrite Hexp by reflexivity. rewrite Hnow. reflexivity.
  - exists r1, w1, w2. repeat split; assumption.
Defined.

(** C4, the claim as stated fails on a new day: a rejected call, and a
    call whose operation throws, both leave [dailyTokens] changed (reset
    from 500 to 0 by the lazy reset check). *)
Lemma withBudget_new_day_changes_dailyTokens :
  (exists e w',
      CostGuard.withBudget "cheap-navigator"
        (AIRouter.cheap_operation (AIRouter.new Sample.config_on) "navigator")
        (Some 300) "cheap" Sample.next_day_world = (Throw e, w')
      /\ fst (CostGuard.canMakeCall 300 "cheap" Sample.next_day_world) = Return false
      /\ dailyTokens (stats (costGuard Sample.next_day_world)) = 500
      /\ dailyTokens (stats (costGuard w')) = 0)
  /\ (exists e w',
        CostGuard.withBudget "cheap-navigator"
          (throw (JS.Err "provider timeout") : M Result)
          (Some 256) "cheap" Sample.next_day_world = (Throw e, w')
        /\ fst (CostGuard.canMakeCall 256 "cheap" Sample.next_day_world) = Return true
        /\ dailyTokens (stats (costGuard Sample.next_day_world)) = 500
        /\ dailyTokens (stats (costGuard w')) = 0).
Proof.
  split; eexists _, _; repeat split; reflexivity.
Qed.

Lemma withBudget_charges_only_success_witness :
  (exists e,
      CostGuard.withBudget "cheap-navigator"
        (AIRouter.cheap_operation (AIRouter.new Sample.config_on) "navigator")
        (Some 300) "cheap" Sample.next_day_world
      = (Throw e, after_reset Sample.next_day_world))
  /\ CostGuard.withBudget "cheap-navigator"
       (throw (JS.Err "provider timeout") : M Result)
       (Some 256) "cheap" Sample.next_day_world
     = (Throw (JS.Err "provider timeout"), after_reset Sample.next_day_world)
  /\ (exists w',
        CostGuard.withBudget "cheap-navigator"
          (AIRouter.cheap_operation (AIRouter.new Sample.config_on) "navigator")
          (Some 256) "cheap" Sample.next_day_world
        = (Return (AIRouter.cheap_answer (AIRouter.new Sample.config_on) "navigator"), w')
        /\ dailyTokens (stats (costGuard w')) = 256
        /\ totalTokens (stats (costGuard w')) = 1156
        /\ cheapCalls (stats (costGuard w')) = 3
        /\ expensiveCalls (stats (costGuard w')) = 1)
  /\ (exists w',
        CostGuard.withBudget "expensive-navigator"
          (AIRouter.expensive_operation (AIRouter.new Sample.config_on) "navigator")
          (Some 512) "expensive" Sample.next_day_world
        = (Return (AIRouter.expensive_answer (AIRouter.new Sample.config_on) "navigator"),
           w')
        /\ dailyTokens (stats (costGuard w')) = 0 + 512
        /\ totalTokens (stats (costGuard w')) = 900 + 512
        /\ expensiveCalls (stats (costGuard w')) = 1 + 1
        /\ cheapCalls (stats (costGuard w')) = 2).
Proof.
  split; [|split; [|split]].
  4: {
    assert (Hc : canSpend (JS.default_arg 100 (Some 512)) "expensive"
                   (after_reset Sample.next_day_world) = true)
      by (vm_compute; reflexivity).
    assert (Hfn : AIRouter.expensive_operation (AIRouter.new Sample.config_on)
                    "navigator" (after_reset Sample.next_day_world)
                  = (Return (AIRouter.expensive_answer (AIRouter.new Sample.config_on)
                               "navigator"),
                     set_now 86401000 (after_reset Sample.next_day_world)))
      by (vm_compute; reflexivity).
    destruct (proj1 (proj2 (proj2 (proj2
                (withBudget_charges_only_success "expensive-navigator"
                   (AIRouter.expensive_operation (AIRouter.new Sample.config_on)
                      "navigator")
                   (Some 512) "expensive" Sample.next_day_world)))) Hc _ _ Hfn)
      as (w' & Hcall & Hd & Ht & Hexp & _).
    exists w'. split; [exact Hcall|]. split; [exact Hd|]. split; [exact Ht|].
    exact (Hexp eq_refl). }
  - eexists.
    apply (proj1 (withBudget_charges_only_success "cheap-navigator"
                    (AIRouter.cheap_operation (AIRouter.new Sample.config_on)
                       "navigator")
                    (Some 300) "cheap" Sample.next_day_world)).
    reflexivity.
  - apply (proj1 (proj2 (withBudget_charges_only_success "cheap-navigator"
                           (throw (JS.Err "provider timeout") : M Result)
                           (Some 256) "cheap" Sample.next_day_world)));
      reflexivity.
  - eexists. split.
    + apply (proj1 (proj2 (proj2
               (withBudget_charges_only_success "cheap-navigator"
                  (AIRouter.cheap_operation (AIRouter.new Sample.config_on)
                     "navigator")
                  (Some 256) "cheap" Sample.next_day_world))));
        reflexivity.
    + repeat split; reflexivity.
Defined.


Lemma route_cache_idempotent_witness :
  exists r1 w1 w2,
    AIRouter.route (AIRouter.new Sample.config_on) "navigator"
      (InStr "I lost my wallet") Sample.navigator_options
      (Sample.fresh Sample.config_on 0) = (Return r1, w1)
    /\ source r1 = Some "cheap-model"
    /\ AIRouter.route (AIRouter.new Sample.config_on) "navigator"
         (InStr "I lost my wallet") Sample.navigator_options
         (set_now 86400000 w1) = (Return r1, w2)
    /\ calls w2 = calls w1
    /\ dailyTokens (stats (costGuard w2)) = dailyTokens (stats (costGuard w1)).
Proof.
  assert (Hok : route_ok (AIRouter.new Sample.config_on) "navigator"
                  (InStr "I lost my wallet") Sample.navigator_options
                  (Sample.fresh Sample.config_on 0) = true)
    by (vm_compute; reflexivity).
  destruct (route_cache_idempotent (AIRouter.new Sample.config_on) "navigator"
              (InStr "I lost my wallet") Sample.navigator_options
              (Sample.fresh Sample.config_on 0) Hok)
    as (r1 & w1 & e & Hroute & _ & _ & Hexp & Hagain).
  assert (Hnow : now w1 = 500 /\ source r1 = Some "cheap-model").
  { rewrite route_eq, cacheGet_absent in Hroute by apply lookup_empty.
    rewrite route_try_eq in Hroute. cbn in Hroute.
    injection Hroute as <- <-. split; reflexivity. }
  destruct Hnow as [Hnow Hsrc].
  destruct (Hagain 86400000) as (w2 & Hsecond & Hcalls & Hdaily & _).
  - rewrite Hexp by reflexivity. rewrite Hnow. reflexivity.
  - exists r1, w1, w2. repeat split; assumption.
Defined.

Lemma confident_rules_never_escalate_witness :
  exists w',
    AIRouter.route (AIRouter.new Sample.config_on) "navigator"
      (InStr "I need help with housing") Sample.navigator_options
      (Sample.fresh Sample.config_on 0)
    = (Return (AIRouter.faq_answer "housing"
                 "For housing assistance, you may qualify for rapid rehousing, emergency shelter, or rental assistance. Eligibility typically requires proof of homelessness or housing instability."),
       w')
    /\ calls w' = [RulesTier].
Proof.
  destruct (confident_rules_never_escalate (AIRouter.new Sample.config_on)
              "navigator" (InStr "I need help with housing")
              Sample.navigator_options (Sample.fresh Sample.config_on 0)
              _ _ _ eq_refl eq_refl eq_refl)
    as (_ & w' & Hroute & Hcalls & _).
  - apply Qle_bool_iff. reflexivity.
  - exists w'. split; [exact Hroute | exact Hcalls].
Defined.

Lemma daily_reset_frame_witness :
  dailyTokens (stats (costGuard (after_reset Sample.next_day_world))) = 0
  /\ lastResetDate (stats (costGuard (after_reset Sample.next_day_world))) = "day 1"
  /\ cheapCalls (stats (costGuard (after_reset Sample.next_day_world))) = 2
  /\ expensiveCalls (stats (costGuard (after_reset Sample.next_day_world))) = 1
  /\ totalTokens (stats (costGuard (after_reset Sample.next_day_world))) = 900.
Proof.
  assert (Hday : lastResetDate (stats (costGuard Sample.next_day_world))
                 <> toDateString (now Sample.next_day_world))
    by discriminate.
  destruct (daily_reset_frame Sample.next_day_world Hday)
    as ((Hd & Hl & Hc & He & Ht & _) & _).
  repeat split; assumption.
Defined.

Lemma budget_enforcement_witness :
  exists w',
    route_queries (AIRouter.new Sample.config_tight)
      ["I lost my wallet"; "where is the library"; "my bike was stolen"]
      Sample.navigator_options (Sample.fresh Sample.config_tight 0)
    = (Return [AIRouter.cheap_answer (AIRouter.new Sample.config_tight) "navigator";
               AIRouter.cheap_answer (AIRouter.new Sample.config_tight) "navigator";
               AIRouter.fallback_navigator], w')
    /\ dailyTokens (stats (costGuard w')) = 512
    /\ cheapCalls (stats (costGuard w')) = 2.
Proof.
  apply (proj2 budget_enforcement (AIRouter.new Sample.config_tight)
           Sample.navigator_options
           ["I lost my wallet"; "where is the library"] "my bike was stolen"
           (Sample.fresh Sample.config_tight 0)).
  - reflexivity.
  - reflexivity.
  - discriminate.
  - discriminate.
  - reflexivity.
  - intros t Ht. change (0 <= t <= 1000) in Ht.
    cbn. rewrite Z.div_small by lia. reflexivity.
  - reflexivity.
  - repeat constructor.
  - apply (bool_decide_unpack _). vm_compute. exact I.
  - repeat constructor.
Defined.

End Examples.

(** ** Further properties of the cost guard *)

Section CacheProperties.
Context `{Runtime}.

(** X1.  Round trip with expiry: an entry stored by [cacheSet] at clock
    [now w] is returned by a [cacheGet] at any clock before
    [now w + ttl * 1000] (a hit that changes nothing else), and from that
    instant on the lookup returns nothing, deletes the entry and counts a
    miss.  The TTL is the one passed, or the guard's [defaultTTL] when it
    is missing or 0. *)
Theorem cacheSet_cacheGet_round_trip key d ttlSeconds w t :
  let ttl := JS.or_num ttlSeconds (defaultTTL (config (costGuard w))) in
  let w1 := set_now t (snd (CostGuard.cacheSet key d ttlSeconds w)) in
  (t < now w + ttl * 1000 ->
   CostGuard.cacheGet key w1
   = (Return (Some d), set_stats (CostGuard.bump_hits (stats (costGuard w))) w1))
  /\ (now w + ttl * 1000 <= t ->
      exists w2,
        CostGuard.cacheGet key w1 = (Return None, w2)
        /\ cache (costGuard w2) = delete key (cache (costGuard w))
        /\ cacheMisses (stats (costGuard w2)) = cacheMisses (stats (costGuard w)) + 1
        /\ cacheHits (stats (costGuard w2)) = cacheHits (stats (costGuard w))).
Proof.
  intros ttl w1. subst ttl w1. split.
  - intros Hlt. unfold CostGuard.cacheGet, CostGuard.cacheSet. cbn.
    rewrite lookup_insert_eq. cbn.
    apply Z.ltb_lt in Hlt. rewrite Hlt. reflexivity.
  - intros Hge. unfold CostGuard.cacheGet, CostGuard.cacheSet. cbn.
    rewrite lookup_insert_eq. cbn.
    apply Z.ltb_ge in Hge. rewrite Hge.
    eexists. split; [reflexivity|]. cbn.
    rewrite delete_insert_eq. repeat split; reflexivity.
Qed.



(** X4.  [clearCache] reports [cleared: true] and a new size of 0, keeps
    the counters and the limits (the hit and miss counts are not reset),
    and after it every lookup, at any clock, is a miss. *)
Theorem clearCache_forgets_everything w key t :
  exists w1,
    CostGuard.clearCache w = (Return (true, 0%nat), w1)
    /\ stats (costGuard w1) = stats (costGuard w)
    /\ config (costGuard w1) = config (costGuard w)
    /\ CostGuard.cacheGet key (set_now t w1)
       = (Return None,
          set_stats (CostGuard.bump_misses (stats (costGuard w))) (set_now t w1)).
Proof.
  unfold CostGuard.clearCache. eexists. split.
  - cbn. rewrite map_size_empty. reflexivity.
  - repeat split.
Qed.

(** X5.  The lazy reset check is idempotent at a fixed clock, and after it
    [lastResetDate] is always the date string of the clock. *)
Theorem reset_idempotent w :
  snd (CostGuard.resetDailyCountersIfNeeded
         (snd (CostGuard.resetDailyCountersIfNeeded w)))
  = snd (CostGuard.resetDailyCountersIfNeeded w)
  /\ lastResetDate (stats (costGuard (snd (CostGuard.resetDailyCountersIfNeeded w))))
     = toDateString (now w).
Proof.
  assert (Hdate : lastResetDate (stats (costGuard (after_reset w)))
                  = toDateString (now w)).
  { unfold CostGuard.resetDailyCountersIfNeeded.
    destruct (String.eqb_spec (lastResetDate (stats (costGuard w)))
                (toDateString (now w))) as [E|E]; cbn; [exact E | reflexivity]. }
  split; [|exact Hdate].
  apply reset_same_day.
  destruct (reset_frame w) as (_ & _ & Hnow & _).
  rewrite Hnow. exact Hdate.
Qed.

(** X6.  The budget check is downward closed: in the same state, a call
    that is allowed for an estimate is allowed for every smaller one. *)
Theorem canMakeCall_downward_closed m n type w :
  m <= n ->
  fst (CostGuard.canMakeCall n type w) = Return true ->
  fst (CostGuard.canMakeCall m type w) = Return true.
Proof.
  intros Hmn. rewrite !canMakeCall_eq. cbn [fst].
  intros [= Hn]. f_equal.
  unfold canSpend in *.
  apply andb_true_iff in Hn as [Ht Hd].
  apply Z.leb_le in Ht, Hd.
  apply andb_true_iff. split; apply Z.leb_le; lia.
Qed.

(** X7.  A guarded call that returns has stayed within both ceilings: for
    an operation that does not touch the guard, after [withBudget] returns
    the estimate is within the tier's ceiling, [dailyTokens] is the value
    after the reset check plus the estimate and is within the daily
    ceiling, and [totalTokens] has grown by the estimate. *)
Theorem withBudget_stays_within_ceilings {A} label (fn : M A)
    estimatedTokens type w a w' :
  (forall w0, costGuard (snd (fn w0)) = costGuard w0) ->
  CostGuard.withBudget label fn estimatedTokens type w = (Return a, w') ->
  let n := JS.default_arg 100 estimatedTokens in
  n <= perTierCeiling type (config (costGuard w'))
  /\ dailyTokens (stats (costGuard w'))
     = dailyTokens (stats (costGuard (after_reset w))) + n
  /\ dailyTokens (stats (costGuard w')) <= maxDailyTokens (config (costGuard w'))
  /\ totalTokens (stats (costGuard w')) = totalTokens (stats (costGuard w)) + n
  /\ config (costGuard w') = config (costGuard w).
Proof.
  intros Hframe. rewrite withBudget_eq. cbn zeta.
  destruct (canSpend _ type (after_reset w)) eqn:Hc; [|discriminate].
  pose proof (Hframe (after_reset w)) as Hg.
  destruct (fn (after_reset w)) as [[a0|e] w1]; [|discriminate].
  cbn [snd] in Hg. intros Heq. split_outcome Heq.
  unfold canSpend in Hc. apply andb_true_iff in Hc as [Ht Hd].
  apply Z.leb_le in Ht, Hd.
  destruct (reset_frame w) as (_ & Hcfg & _ & _ & _ & _ & _ & _ & Htot).
  cbn. rewrite Hg. repeat split; try assumption; try reflexivity.
  rewrite Htot. reflexivity.
Qed.

(** X8.  [setEmergencyLimits] replaces the limits its argument carries
    and keeps the others; once the daily ceiling is set to 0 or less, a
    guarded call with a positive estimate is rejected without running the
    operation (daily usage being non-negative), leaving the state as the
    reset check left it. *)
Theorem emergency_limit_blocks_calls {A} label (fn : M A) estimatedTokens type
    limits m w :
  CostGuard.patch_maxDailyTokens limits = Some m ->
  m <= 0 ->
  0 < JS.default_arg 100 estimatedTokens ->
  0 <= dailyTokens (stats (costGuard w)) ->
  exists l w1,
    CostGuard.setEmergencyLimits limits w = (Return l, w1)
    /\ config (costGuard w1) = l
    /\ maxDailyTokens l = m
    /\ (CostGuard.patch_maxCheapTokens limits = None ->
        maxCheapTokens l = maxCheapTokens (config (costGuard w)))
    /\ (CostGuard.patch_maxExpensiveTokens limits = None ->
        maxExpensiveTokens l = maxExpensiveTokens (config (costGuard w)))
    /\ stats (costGuard w1) = stats (costGuard w)
    /\ cache (costGuard w1) = cache (costGuard w)
    /\ CostGuard.withBudget label fn estimatedTokens type w1
       = (Throw (JS.Err (CostGuard.budget_message label (after_reset w1))),
          after_reset w1).
Proof.
  intros Hm Hle Hest Hdaily.
  unfold CostGuard.setEmergencyLimits. eexists _, _. split; [reflexivity|].
  cbn [costGuard config stats cache].
  repeat split.
  - unfold CostGuard.merge. cbn. rewrite Hm. reflexivity.
  - intros E. unfold CostGuard.merge. cbn. rewrite E. reflexivity.
  - intros E. unfold CostGuard.merge. cbn. rewrite E. reflexivity.
  - match goal with
    | |- context [CostGuard.withBudget _ _ _ _ ?w0] => set (w1 := w0)
    end.
    rewrite withBudget_eq. cbn zeta.
    assert (Hfalse : canSpend (JS.default_arg 100 estimatedTokens) type
                       (after_reset w1) = false).
    { unfold canSpend. apply andb_false_iff. right. apply Z.leb_gt.
      destruct (reset_frame w1) as (_ & Hcfg & _). rewrite Hcfg.
      assert (Hd : 0 <= dailyTokens (stats (costGuard (after_reset w1)))).
      { unfold CostGuard.resetDailyCountersIfNeeded.
        destruct (negb _); cbn; [lia | exact Hdaily]. }
      change (config (costGuard w1))
        with (CostGuard.merge (config (costGuard w)) limits).
      unfold CostGuard.merge. cbn [maxDailyTokens]. rewrite Hm.
      cbn [JS.override]. lia. }
    rewrite Hfalse. reflexivity.
Qed.

(** X9.  On every result object of the kind the router produces (one
    that carries [confidence] and no [needsMoreContext]) the guard's
    [shouldEscalate] and the router's agree; a missing result is not
    escalated by the guard's. *)
Theorem shouldEscalate_agree r :
  CostGuard.shouldEscalate (Some r) = AIRouter.shouldEscalate r
  /\ CostGuard.shouldEscalate None = false.
Proof.
  split; [|reflexivity].
  unfold CostGuard.shouldEscalate, AIRouter.shouldEscalate.
  destruct (Qltb (confidence r) 0.7), (uncertain r); reflexivity.
Qed.

End CacheProperties.

(** ** Further properties of the router *)

Section RouteOutcomes.
Context `{Runtime}.
Variable this : AIRouter.t.

Lemma reset_daily_cases w :
  dailyTokens (stats (costGuard (after_reset w))) = 0
  \/ dailyTokens (stats (costGuard (after_reset w)))
     = dailyTokens (stats (costGuard w)).
Proof.
  unfold CostGuard.resetDailyCountersIfNeeded.
  destruct (negb _); cbn; [left | right]; reflexivity.
Qed.

(** The five ways a [route] call ends, with the world each one leaves. *)
Lemma route_outcomes task input options w :
  let key := AIRouter.cacheKey task input options in
  let w0 := set_stats (CostGuard.bump_misses (stats (costGuard w)))
              (set_cache (delete key (cache (costGuard w))) w) in
  let w1 := record_call RulesTier w0 in
  let w2 := after_reset (record_call CheapTier w1) in
  let n := JS.default_arg 100 (Config.AI_MAX_TOKENS_CHEAP (AIRouter.config this)) in
  let ttl := Some (AIRouter.getTTL this task) in
  (exists e,
      cache (costGuard w) !! key = Some e /\ now w < expiry e
      /\ AIRouter.route this task input options w
         = (Return (data e), set_stats (CostGuard.bump_hits (stats (costGuard w))) w))
  \/ (fst (CostGuard.cacheGet key w) = Return None
      /\ ((exists e,
              fst (AIRouter.tryRulesFirst task input options w0) = Throw e
              /\ AIRouter.route this task input options w
                 = (Return (AIRouter.getFallbackResponse task input options), w1))
          \/ (exists r,
                 fst (AIRouter.tryRulesFirst task input options w0) = Return r
                 /\ AIRouter.shouldEscalate r && JS.truthy (AIRouter.enabled this) = false
                 /\ AIRouter.route this task input options w
                    = (Return r, snd (CostGuard.cacheSet key r ttl w1)))
          \/ (exists r,
                 fst (AIRouter.tryRulesFirst task input options w0) = Return r
                 /\ AIRouter.shouldEscalate r = true
                 /\ JS.truthy (AIRouter.enabled this) = true
                 /\ canSpend n "cheap" w2 = true
                 /\ AIRouter.route this task input options w
                    = (Return (AIRouter.cheap_answer this task),
                       snd (CostGuard.cacheSet key (AIRouter.cheap_answer this task) ttl
                              (set_stats (CostGuard.charge n "cheap" (stats (costGuard w2)))
                                 (set_now (now w2 + 500) w2)))))
          \/ (exists r,
                 fst (AIRouter.tryRulesFirst task input options w0) = Return r
                 /\ AIRouter.shouldEscalate r = true
                 /\ JS.truthy (AIRouter.enabled this) = true
                 /\ canSpend n "cheap" w2 = false
                 /\ AIRouter.route this task input options w
                    = (Return (AIRouter.getFallbackResponse task input options), w2)))).
Proof.
  intros key w0 w1 w2 n ttl. rewrite route_eq. fold key.
  destruct (CostGuard.cacheGet key w) as [[[r|]|e] wg] eqn:Hget.
  - left. apply cacheGet_hit_inv in Hget as (e & He & <- & Hlt & ->).
    exists e. auto.
  - right. split; [reflexivity|].
    apply cacheGet_miss_inv in Hget. subst wg. fold w0.
    rewrite route_try_eq. cbn zeta. fold w1 w2 n ttl.
    destruct (fst (AIRouter.tryRulesFirst task input options w0)) as [r|e].
    + destruct (AIRouter.shouldEscalate r && JS.truthy (AIRouter.enabled this)) eqn:Hesc.
      * apply andb_true_iff in Hesc as [He Hen].
        destruct (canSpend n "cheap" w2) eqn:Hspend.
        -- right. right. left. exists r. auto.
        -- right. right. right. exists r. auto.
      * right. left. exists r. auto.
    + left. exists e. auto.
  - exfalso. exact (cacheGet_never_throws _ _ _ _ Hget).
Qed.

End RouteOutcomes.

Section RouteProperties.
Context `{Runtime}.
Variable this : AIRouter.t.

Local Opaque CostGuard.resetDailyCountersIfNeeded.

(** Case analysis of a [route] call, with the frame of the reset check
    of the cheap tier at hand. *)
Ltac route_cases task input options w :=
  let Ho := fresh "Ho" in
  pose proof (route_outcomes this task input options w) as Ho;
  cbv zeta in Ho;
  destruct Ho as
    [ (?e & ?Hentry & ?Hlive & ?Hroute)
    | (?Hmiss &
       [ (?e & ?Hrules & ?Hroute)
       | [ (?r & ?Hrules & ?Hsettled & ?Hroute)
         | [ (?r & ?Hrules & ?Hesc & ?Hen & ?Hspend & ?Hroute)
           | (?r & ?Hrules & ?Hesc & ?Hen & ?Hspend & ?Hroute) ] ] ]) ];
  rewrite Hroute;
  try match goal with
      | _ : context [after_reset ?w2] |- _ =>
          let Hc := fresh "Hcache" in
          let Hl := fresh "Hlimits" in
          let Hn := fresh "Hnow" in
          let Hk := fresh "Hcalls" in
          let Hh := fresh "Hhits" in
          let Hm := fresh "Hmisses" in
          let Hch := fresh "Hcheap" in
          let Hex := fresh "Hexpensive" in
          let Ht := fresh "Htotal" in
          destruct (reset_frame w2) as (Hc & Hl & Hn & Hk & Hh & Hm & Hch & Hex & Ht)
      end.

(** X10.  [route] never reaches the expensive tier: a call makes no tier
    call (a cache hit), the rules call alone, or the rules call followed by
    the cheap call, and [expensiveCalls] is never changed.  (The cheap
    tier's answer carries confidence 0.7, which does not escalate.) *)
Theorem route_never_calls_expensive_tier task input options w :
  exists r w' l,
    AIRouter.route this task input options w = (Return r, w')
    /\ calls w' = (calls w ++ l)%list
    /\ (l = [] \/ l = [RulesTier] \/ l = [RulesTier; CheapTier])
    /\ expensiveCalls (stats (costGuard w')) = expensiveCalls (stats (costGuard w)).
Proof.
  route_cases task input options w.
  - eexists _, _, []. split; [reflexivity|].
    cbn. rewrite app_nil_r. repeat split; auto.
  - eexists _, _, [RulesTier]. split; [reflexivity|].
    cbn. repeat split; auto.
  - eexists _, _, [RulesTier]. split; [reflexivity|].
    cbn. repeat split; auto.
  - eexists _, _, [RulesTier; CheapTier]. split; [reflexivity|].
    cbn [CostGuard.cacheSet snd set_cache set_stats set_now calls costGuard stats
           CostGuard.charge expensiveCalls String.eqb Ascii.eqb Bool.eqb].
    rewrite Hcalls, Hexpensive. cbn. rewrite <- app_assoc. repeat split; auto.
  - eexists _, _, [RulesTier; CheapTier]. split; [reflexivity|].
    rewrite Hcalls, Hexpensive. cbn. rewrite <- app_assoc. repeat split; auto.
Qed.

(** X11.  [enabled] is truthy exactly when both [AI_ENABLE] and the
    credential are truthy; and a router whose [enabled] is falsy (AI
    switched off, or switched on without a credential) only ever calls the
    rules tier: no token or call counter, nor the reset date or the clock,
    is changed by [route]. *)
Theorem disabled_router_uses_rules_only task input options w :
  (forall cfg,
      JS.truthy (AIRouter.enabled (AIRouter.new cfg))
      = JS.truthy (Config.AI_ENABLE cfg) && JS.truthy (Config.OPENAI_API_KEY cfg))
  /\ (JS.truthy (AIRouter.enabled this) = false ->
      exists r w',
        AIRouter.route this task input options w = (Return r, w')
        /\ (calls w' = calls w \/ calls w' = (calls w ++ [RulesTier])%list)
        /\ dailyTokens (stats (costGuard w')) = dailyTokens (stats (costGuard w))
        /\ totalTokens (stats (costGuard w')) = totalTokens (stats (costGuard w))
        /\ cheapCalls (stats (costGuard w')) = cheapCalls (stats (costGuard w))
        /\ expensiveCalls (stats (costGuard w')) = expensiveCalls (stats (costGuard w))
        /\ lastResetDate (stats (costGuard w')) = lastResetDate (stats (costGuard w))
        /\ now w' = now w).
Proof.
  split.
  - intros cfg. cbn. unfold JS.and.
    destruct (JS.truthy (Config.AI_ENABLE cfg)) eqn:E; [reflexivity | exact E].
  - intros Hoff. route_cases task input options w; try congruence.
    + eexists _, _. split; [reflexivity|]. cbn. repeat split; auto.
    + eexists _, _. split; [reflexivity|]. cbn. repeat split; auto.
    + eexists _, _. split; [reflexivity|]. cbn. repeat split; auto.
Qed.

Lemma rules_source_careplan input options w0 r :
  fst (AIRouter.tryRulesFirst "careplan" input options w0) = Return r ->
  source r = Some "rules" /\ uncertain r = false /\ confidence r = 0.8%Q.
Proof. cbn. intros [= <-]. repeat split. Qed.

(** X12.  Triage and care-plan requests never consult the AI tiers, also
    when AI is enabled: [route] makes at most the rules call and changes
    no token or call counter.  On a cache miss a care-plan request returns
    a rules result (source "rules", not uncertain, confidence 0.8), never
    the fallback; a triage request returns the triage fallback, because
    the rules call throws, and stores nothing. *)
Theorem triage_careplan_never_use_ai task input options w :
  task = "triage" \/ task = "careplan" ->
  exists r w',
    AIRouter.route this task input options w = (Return r, w')
    /\ (calls w' = calls w \/ calls w' = (calls w ++ [RulesTier])%list)
    /\ dailyTokens (stats (costGuard w')) = dailyTokens (stats (costGuard w))
    /\ totalTokens (stats (costGuard w')) = totalTokens (stats (costGuard w))
    /\ cheapCalls (stats (costGuard w')) = cheapCalls (stats (costGuard w))
    /\ expensiveCalls (stats (costGuard w')) = expensiveCalls (stats (costGuard w))
    /\ (fst (CostGuard.cacheGet (AIRouter.cacheKey task input options) w) = Return None ->
        (task = "careplan" ->
         source r = Some "rules" /\ uncertain r = false /\ confidence r = 0.8%Q)
        /\ (task = "triage" ->
            source r = Some "fallback" /\ priority r = Some "medium"
            /\ confidence r = 0.5%Q
            /\ cache (costGuard w') !! AIRouter.cacheKey task input options = None)).
Proof.
  intros Htask.
  route_cases task input options w.
  - eexists _, _. split; [reflexivity|].
    split; [left; reflexivity|]. repeat (split; [reflexivity|]).
    intros Hm. rewrite (cacheGet_live _ _ _ Hentry Hlive) in Hm. discriminate.
  - destruct Htask as [-> | ->].
    + eexists _, _. split; [reflexivity|].
      split; [right; reflexivity|]. repeat (split; [reflexivity|]).
      intros _. split; [discriminate|]. intros _.
      repeat split. cbn. apply lookup_delete_eq.
    + match type of Hrules with
      | fst (AIRouter.tryRulesFirst _ _ _ ?w0) = _ =>
          destruct (rules_settle_careplan input options w0) as (r & Hr & _)
      end.
      rewrite Hr in Hrules. discriminate.
  - destruct Htask as [-> | ->].
    + rewrite rules_throw_triage in Hrules. discriminate.
    + eexists _, _. split; [reflexivity|].
      split; [right; reflexivity|]. repeat (split; [reflexivity|]).
      intros _. split; [|discriminate]. intros _.
      eapply rules_source_careplan; eauto.
  - destruct Htask as [-> | ->].
    + rewrite rules_throw_triage in Hrules. discriminate.
    + match type of Hrules with
      | fst (AIRouter.tryRulesFirst _ _ _ ?w0) = _ =>
          destruct (rules_settle_careplan input options w0) as (r' & Hr & Hs)
      end.
      rewrite Hr in Hrules. injection Hrules as <-. congruence.
  - destruct Htask as [-> | ->].
    + rewrite rules_throw_triage in Hrules. discriminate.
    + match type of Hrules with
      | fst (AIRouter.tryRulesFirst _ _ _ ?w0) = _ =>
          destruct (rules_settle_careplan input options w0) as (r' & Hr & Hs)
      end.
      rewrite Hr in Hrules. injection Hrules as <-. congruence.
Qed.

(** X13.  Isolation: a [route] call never changes the limits, and in the
    cache it touches at most the entry under its own key. *)
Theorem route_touches_only_its_key task input options w k :
  k <> AIRouter.cacheKey task input options ->
  cache (costGuard (snd (AIRouter.route this task input options w))) !! k
  = cache (costGuard w) !! k
  /\ config (costGuard (snd (AIRouter.route this task input options w)))
     = config (costGuard w).
Proof.
  intros Hk.
  assert (Hk' : AIRouter.cacheKey task input options <> k) by congruence.
  route_cases task input options w; cbn [snd].
  - cbn. auto.
  - cbn. split; [apply lookup_delete_ne; exact Hk' | reflexivity].
  - cbn. rewrite lookup_insert_ne by exact Hk'.
    split; [apply lookup_delete_ne; exact Hk' | reflexivity].
  - cbn [CostGuard.cacheSet snd set_cache set_stats set_now costGuard cache config].
    rewrite lookup_insert_ne by exact Hk'. rewrite Hcache, Hlimits. cbn.
    split; [apply lookup_delete_ne; exact Hk' | reflexivity].
  - rewrite Hcache, Hlimits. cbn.
    split; [apply lookup_delete_ne; exact Hk' | reflexivity].
Qed.

(** X14.  The daily ceiling is an invariant of [route]: with a
    non-negative ceiling, if [dailyTokens] is within it before a call it
    is within it afterwards, whatever the task, the input, the cost of a
    cheap call or the date. *)
Theorem route_keeps_daily_budget task input options w :
  0 <= maxDailyTokens (config (costGuard w)) ->
  dailyTokens (stats (costGuard w)) <= maxDailyTokens (config (costGuard w)) ->
  dailyTokens (stats (costGuard (snd (AIRouter.route this task input options w))))
  <= maxDailyTokens (config (costGuard (snd (AIRouter.route this task input options w)))).
Proof.
  intros Hmax Hdaily.
  route_cases task input options w; cbn [snd].
  - cbn. exact Hdaily.
  - cbn. exact Hdaily.
  - cbn. exact Hdaily.
  - unfold canSpend in Hspend. apply andb_true_iff in Hspend as [_ Hd].
    apply Z.leb_le in Hd.
    cbn [CostGuard.cacheSet snd set_cache set_stats set_now costGuard stats config
           CostGuard.charge dailyTokens].
    exact Hd.
  - rewrite Hlimits. cbn [record_call costGuard config set_stats set_cache].
    match goal with
    | |- dailyTokens (stats (costGuard (after_reset ?w2))) <= _ =>
        destruct (reset_daily_cases w2) as [E|E]; rewrite E
    end.
    + exact Hmax.
    + cbn. exact Hdaily.
Qed.

(** X15.  A navigator call whose input is not a string (a client record)
    always ends in the navigator fallback when it misses the cache: the
    [TypeError] of the rules tier is absorbed, no token is spent, nothing
    is stored, and so every repetition of the call, at any later clock,
    ends the same way. *)
Theorem navigator_object_input_falls_back c options w :
  fst (CostGuard.cacheGet (AIRouter.cacheKey "navigator" (InObj c) options) w)
  = Return None ->
  exists w',
    AIRouter.route this "navigator" (InObj c) options w
    = (Return AIRouter.fallback_navigator, w')
    /\ cache (costGuard w') !! AIRouter.cacheKey "navigator" (InObj c) options = None
    /\ calls w' = (calls w ++ [RulesTier])%list
    /\ dailyTokens (stats (costGuard w')) = dailyTokens (stats (costGuard w))
    /\ forall t, exists w'',
         AIRouter.route this "navigator" (InObj c) options (set_now t w')
         = (Return AIRouter.fallback_navigator, w'').
Proof.
  intros Hmiss.
  assert (Hstep : forall v,
             cache (costGuard v) !! AIRouter.cacheKey "navigator" (InObj c) options = None ->
             AIRouter.route this "navigator" (InObj c) options v
             = (Return AIRouter.fallback_navigator,
                record_call RulesTier
                  (set_stats (CostGuard.bump_misses (stats (costGuard v))) v))).
  { intros v Hv. rewrite route_eq, (cacheGet_absent _ _ Hv), route_try_eq. reflexivity. }
  destruct (CostGuard.cacheGet _ w) as [o w0] eqn:Hget. cbn [fst] in Hmiss. subst o.
  rewrite route_eq, Hget, route_try_eq. cbn zeta.
  change (fst (AIRouter.tryRulesFirst "navigator" (InObj c) options w0))
    with (Throw (A:=Result) (JS.TypeErr "input.toLowerCase is not a function")).
  cbn match.
  apply cacheGet_miss_inv in Hget. subst w0.
  eexists. split; [reflexivity|]. cbn.
  repeat split; auto.
  - apply lookup_delete_eq.
  - intros t. eexists. apply Hstep. cbn. apply lookup_delete_eq.
Qed.

(** X16.  A task other than the three known ones, with AI disabled, on a
    cache miss: [route] returns the bare marker
    [{ uncertain: true, confidence: 0.3 }], which carries no response text
    and no source, and stores it for one hour whatever the configured
    TTLs are. *)
Theorem unknown_task_gets_bare_uncertain task input options w :
  task <> "navigator" -> task <> "triage" -> task <> "careplan" ->
  JS.truthy (AIRouter.enabled this) = false ->
  fst (CostGuard.cacheGet (AIRouter.cacheKey task input options) w) = Return None ->
  exists w',
    AIRouter.route this task input options w = (Return AIRouter.uncertain_default, w')
    /\ response AIRouter.uncertain_default = None
    /\ source AIRouter.uncertain_default = None
    /\ cache (costGuard w') !! AIRouter.cacheKey task input options
       = Some (mkEntry AIRouter.uncertain_default (now w + 3600 * 1000)).
Proof.
  intros Hn Ht Hc Hoff Hmiss.
  apply String.eqb_neq in Hn, Ht, Hc.
  assert (Hrules : forall w0,
             fst (AIRouter.tryRulesFirst task input options w0)
             = Return AIRouter.uncertain_default).
  { intros w0. unfold AIRouter.tryRulesFirst, bind, modify. rewrite Hn, Ht, Hc.
    reflexivity. }
  assert (Httl : AIRouter.getTTL this task = 3600).
  { unfold AIRouter.getTTL. rewrite Hn, Ht, Hc. reflexivity. }
  destruct (CostGuard.cacheGet _ w) as [o w0] eqn:Hget. cbn [fst] in Hmiss. subst o.
  rewrite route_eq, Hget.
  rewrite (route_try_settled _ _ _ _ _ _ _ (Hrules w0))
    by (rewrite Hoff; apply andb_false_r).
  eexists. split; [reflexivity|]. repeat split.
  rewrite cacheSet_lookup, Httl.
  apply cacheGet_miss_inv in Hget. subst w0. reflexivity.
Qed.

Lemma navigator_has_text s options :
  exists r, AIRouter.navigatorRules (InStr s) options = Return r
            /\ exists text, response r = Some text.
Proof.
  unfold AIRouter.navigatorRules. cbn zeta.
  destruct (find _ AIRouter.faqRules) as [[category answer]|].
  - eexists. split; [reflexivity|]. eexists. reflexivity.
  - destruct (_ || _ || _); eexists; (split; [reflexivity|]); eexists; reflexivity.
Qed.

(** X17.  The navigator endpoint always replies with a response text when
    the request misses the cache, whatever the query (also a missing or
    empty one) and whichever tier or fallback answers; and with AI
    disabled a missing or empty query gets the clarifying prompt at
    confidence 0.4 with no source. *)
Theorem navigator_reply_has_text query context w :
  fst (CostGuard.cacheGet
         (AIRouter.cacheKey "navigator" (InStr (JS.or_str query ""))
            (JS.JObj [("context", Routes.or_empty_object context)])) w)
  = Return None ->
  (exists text,
      Routes.reply_response (fst (Routes.navigator this query context w)) = Some text)
  /\ (JS.truthy (AIRouter.enabled this) = false ->
      JS.or_str query "" = "" ->
      fst (Routes.navigator this query context w)
      = Routes.mkReply (response AIRouter.navigator_uncertain) 0.4 None).
Proof.
  intros Hmiss. unfold Routes.navigator. cbn zeta.
  set (q := JS.or_str query "") in *.
  set (opts := JS.JObj [("context", Routes.or_empty_object context)]) in *.
  destruct (navigator_has_text q opts) as (r0 & Hr0 & text0 & Htext0).
  assert (Hrules : forall w0,
             fst (AIRouter.tryRulesFirst "navigator" (InStr q) opts w0) = Return r0).
  { intros w0. cbn. exact Hr0. }
  route_cases "navigator" (InStr q) opts w.
  - rewrite (cacheGet_live _ _ _ Hentry Hlive) in Hmiss. discriminate.
  - rewrite Hrules in Hrules0. discriminate.
  - rewrite Hrules in Hrules0. injection Hrules0 as <-. cbn [fst].
    split.
    + exists text0. exact Htext0.
    + intros _ Hq. rewrite Hq in Hr0. cbn in Hr0. injection Hr0 as <-. reflexivity.
  - cbn [fst]. split; [eexists; reflexivity | congruence].
  - cbn [fst]. split; [eexists; reflexivity | congruence].
Qed.

End RouteProperties.

(** ** Properties of the rules tier and of the configuration *)

Section RulesProperties.
Context `{Runtime}.

Lemma lower_ascii_idempotent c : JS.lower_ascii (JS.lower_ascii c) = JS.lower_ascii c.
Proof. destruct c as [[] [] [] [] [] [] [] []]; reflexivity. Qed.

Lemma toLowerCase_idempotent s : JS.toLowerCase (JS.toLowerCase s) = JS.toLowerCase s.
Proof.
  induction s as [|c s IH]; [reflexivity|].
  cbn. rewrite lower_ascii_idempotent, IH. reflexivity.
Qed.

(** X18.  The navigator rules are case-insensitive on ASCII letters and
    ignore the options: a query and its lower-cased form get the same
    answer. *)
Theorem navigator_case_insensitive s options options' :
  AIRouter.navigatorRules (InStr (JS.toLowerCase s)) options
  = AIRouter.navigatorRules (InStr s) options'.
Proof.
  unfold AIRouter.navigatorRules. cbn zeta.
  rewrite toLowerCase_idempotent. reflexivity.
Qed.

(** X19.  What the navigator rules answer.  A category answer is given
    only for a category of the FAQ table that the lower-cased query
    mentions (as written, or with its first hyphen replaced by a space),
    with that category's text at confidence 0.9; whenever some category is
    mentioned the answer is a category answer; and the result is the
    uncertain one exactly when no category and none of the words "help",
    "hello", "start" occurs in the query. *)
Theorem navigator_answers_what_is_mentioned s options :
  let query := JS.toLowerCase s in
  let mentions := fun c : string =>
    JS.includes query c || JS.includes query (JS.replace c "-" " ") in
  let greets :=
    JS.includes query "help" || JS.includes query "hello" || JS.includes query "start" in
  (forall r c,
      AIRouter.navigatorRules (InStr s) options = Return r ->
      category r = Some c ->
      c = "general"
      \/ exists text, In (c, text) AIRouter.faqRules /\ mentions c = true
                      /\ r = AIRouter.faq_answer c text)
  /\ ((exists c text, In (c, text) AIRouter.faqRules /\ mentions c = true) ->
      exists c text, AIRouter.navigatorRules (InStr s) options
                     = Return (AIRouter.faq_answer c text))
  /\ (AIRouter.navigatorRules (InStr s) options = Return AIRouter.navigator_uncertain
      <-> (forall c text, In (c, text) AIRouter.faqRules -> mentions c = false)
          /\ greets = false).
Proof.
  intros query mentions greets.
  unfold AIRouter.navigatorRules. cbn zeta. fold query.
  set (f := fun entry : string * string =>
              JS.includes query (fst entry)
              || JS.includes query (JS.replace (fst entry) "-" " ")).
  destruct (find f AIRouter.faqRules) as [[c0 text0]|] eqn:Hfind.
  - apply find_some in Hfind as [Hin Hf].
    split; [|split].
    + intros r c [= <-] [= <-]. right. exists text0. auto.
    + intros _. exists c0, text0. reflexivity.
    + split; [discriminate|].
      intros [Hnone _]. specialize (Hnone c0 text0 Hin).
      unfold mentions in Hnone. unfold f in Hf. cbn in Hf. congruence.
  - pose proof (find_none _ _ Hfind) as Hnone.
    fold greets.
    split; [|split].
    + intros r c. destruct greets; intros [= <-] [= <-]. left. reflexivity.
    + intros (c & text & Hin & Hm). specialize (Hnone (c, text) Hin).
      unfold f in Hnone. cbn in Hnone. unfold mentions in Hm. congruence.
    + destruct greets.
      * split; [discriminate | intros [_ Hg]; discriminate].
      * split; [|reflexivity]. intros _. split; [|reflexivity].
        intros c text Hin. exact (Hnone (c, text) Hin).
Qed.

(** X20.  Priority and confidence of a triage assessment.  The result is
    "urgent" at confidence 0.95 exactly when the urgency is "high" or
    "critical" and the needs include housing, mental-health or
    substance-abuse; otherwise its priority is the client's urgency as
    given ("medium" when missing or empty) at confidence 0.8.  The source
    is always "rules", and with pressing urgency housing takes precedence
    over the crisis assessment. *)
Theorem triageRules_priority input options :
  let needs := JS.or_arr (AIRouter.input_needs input) in
  let urgency := JS.or_str (AIRouter.input_urgency input) "medium" in
  let pressing := String.eqb urgency "high" || String.eqb urgency "critical" in
  let crisis := JS.arr_includes needs "housing"
                || (JS.arr_includes needs "mental-health"
                    || JS.arr_includes needs "substance-abuse") in
  let r := AIRouter.triageRules input options in
  priority r = Some (if pressing && crisis then "urgent" else urgency)
  /\ confidence r = (if pressing && crisis then 0.95 else 0.8)%Q
  /\ source r = Some "rules"
  /\ uncertain r = false
  /\ (pressing && JS.arr_includes needs "housing" = true ->
      r = AIRouter.urgent_housing).
Proof.
  intros needs urgency pressing crisis r. subst r crisis.
  unfold AIRouter.triageRules. cbn zeta. fold needs urgency pressing.
  destruct pressing, (JS.arr_includes needs "housing"),
    (JS.arr_includes needs "mental-health"),
    (JS.arr_includes needs "substance-abuse");
    cbn; repeat split; try reflexivity; discriminate.
Qed.

Lemma advice_length l :
  length (flat_map AIRouter.need_advice l)
  = length (List.filter (fun need => String.eqb need "housing"
                                     || String.eqb need "employment"
                                     || String.eqb need "medical") l).
Proof.
  induction l as [|need l IH]; [reflexivity|].
  cbn [flat_map List.filter]. rewrite length_app, IH.
  unfold AIRouter.need_advice.
  destruct (String.eqb need "housing"); [reflexivity|].
  destruct (String.eqb need "employment"); [reflexivity|].
  destruct (String.eqb need "medical"); reflexivity.
Qed.

(** X21.  The two lists of a triage assessment.  [recommendations] and
    [nextSteps] are always present and of the same length; outside the
    urgent branch they hold one pair per need among housing, employment
    and medical, in the order of the needs, every other need being
    ignored, so a client without recognized needs gets two empty lists. *)
Theorem triageRules_lists input options :
  let needs := JS.or_arr (AIRouter.input_needs input) in
  let r := AIRouter.triageRules input options in
  exists recs steps,
    recommendations r = Some recs
    /\ nextSteps r = Some steps
    /\ length recs = length steps
    /\ (priority r <> Some "urgent" ->
        recs = map fst (flat_map AIRouter.need_advice needs)
        /\ steps = map snd (flat_map AIRouter.need_advice needs)
        /\ length recs
           = length (List.filter (fun need => String.eqb need "housing"
                                              || String.eqb need "employment"
                                              || String.eqb need "medical") needs)
        /\ (length recs <= length needs)%nat).
Proof.
  intros needs r. subst r. unfold AIRouter.triageRules. cbn zeta. fold needs.
  destruct (_ && JS.arr_includes needs "housing").
  - eexists _, _. repeat split; try reflexivity; cbn in *; congruence.
  - destruct (_ && (_ || _)).
    + eexists _, _. repeat split; try reflexivity; cbn in *; congruence.
    + eexists _, _. split; [reflexivity|]. split; [reflexivity|].
      split; [rewrite !length_map; reflexivity|].
      intros _. split; [reflexivity|]. split; [reflexivity|].
      rewrite length_map, advice_length. split; [reflexivity|].
      apply List.filter_length_le.
Qed.

(** X22.  A care plan depends on the first need only (and on the clock,
    for the review date): two inputs whose needs start with the same
    entry, or are both empty or missing, get the same plan at the same
    clock, whatever their other needs, urgency or options; the plan is
    returned without changing the world and is reviewed 30 days on. *)
Theorem careplan_depends_on_first_need input1 input2 options1 options2 w1 w2 :
  head (JS.or_arr (AIRouter.input_needs input1))
  = head (JS.or_arr (AIRouter.input_needs input2)) ->
  now w1 = now w2 ->
  fst (AIRouter.careplanRules input1 options1 w1)
  = fst (AIRouter.careplanRules input2 options2 w2)
  /\ snd (AIRouter.careplanRules input1 options1 w1) = w1
  /\ exists r,
      fst (AIRouter.careplanRules input1 options1 w1) = Return r
      /\ reviewDate r = Some (toISOString (now w1 + 2592000000))
      /\ timeline r = Some "90 days"
      /\ confidence r = 0.8%Q
      /\ source r = Some "rules".
Proof.
  intros Hhead Hnow. unfold AIRouter.careplanRules, bind, gets, ret. cbn.
  rewrite Hhead, Hnow. split; [reflexivity|]. split; [reflexivity|].
  eexists. repeat split.
Qed.

(** X23.  For a guard and a router built from the same configuration,
    without keys overriding the tier ceilings, the estimate the router
    passes for either tier is within that tier's ceiling (100 tokens
    against 256 and 512 when the configuration sets no token maximum); so
    in such a world a cheap call is allowed exactly when the daily ceiling
    allows it. *)
Theorem router_estimates_within_tier_ceilings cfg t :
  Config.maxCheapTokens cfg = None ->
  Config.maxExpensiveTokens cfg = None ->
  let limits := config (CostGuard.new cfg t) in
  let cheap := JS.default_arg 100 (Config.AI_MAX_TOKENS_CHEAP cfg) in
  let expensive := JS.default_arg 100 (Config.AI_MAX_TOKENS_EXPENSIVE cfg) in
  cheap <= maxCheapTokens limits
  /\ expensive <= maxExpensiveTokens limits
  /\ (forall w, config (costGuard w) = limits ->
        canSpend cheap "cheap" w
        = (dailyTokens (stats (costGuard w)) + cheap <=? maxDailyTokens limits)).
Proof.
  intros Hc He limits cheap expensive. subst limits cheap expensive.
  unfold CostGuard.new. cbn [config maxCheapTokens maxExpensiveTokens maxDailyTokens].
  rewrite Hc, He. cbn [JS.override].
  assert (H1 : JS.default_arg 100 (Config.AI_MAX_TOKENS_CHEAP cfg)
               <= JS.or_num (Config.AI_MAX_TOKENS_CHEAP cfg) 256).
  { destruct (Config.AI_MAX_TOKENS_CHEAP cfg) as [n|]; cbn; [|lia].
    destruct (Z.eqb_spec n 0); lia. }
  assert (H2 : JS.default_arg 100 (Config.AI_MAX_TOKENS_EXPENSIVE cfg)
               <= JS.or_num (Config.AI_MAX_TOKENS_EXPENSIVE cfg) 512).
  { destruct (Config.AI_MAX_TOKENS_EXPENSIVE cfg) as [n|]; cbn; [|lia].
    destruct (Z.eqb_spec n 0); lia. }
  split; [exact H1|]. split; [exact H2|].
  intros w Hw. unfold canSpend, perTierCeiling. rewrite Hw. cbn.
  apply Z.leb_le in H1. rewrite H1. reflexivity.
Qed.

End RulesProperties.

(** ** The further properties on concrete inputs *)

Section MoreExamples.
Local Existing Instance Sample.runtime.

Lemma cacheSet_cacheGet_round_trip_witness :
  fst (CostGuard.cacheGet "k"
         (set_now 59999
            (snd (CostGuard.cacheSet "k" AIRouter.urgent_housing (Some 60)
                    (Sample.fresh Sample.config_off 0)))))
  = Return (Some AIRouter.urgent_housing)
  /\ fst (CostGuard.cacheGet "k"
            (set_now 60000
               (snd (CostGuard.cacheSet "k" AIRouter.urgent_housing (Some 60)
                       (Sample.fresh Sample.config_off 0)))))
     = Return None.
Proof.
  split.
  - rewrite (proj1 (cacheSet_cacheGet_round_trip "k" AIRouter.urgent_housing (Some 60)
                      (Sample.fresh Sample.config_off 0) 59999))
      by (vm_compute; reflexivity).
    reflexivity.
  - destruct (proj2 (cacheSet_cacheGet_round_trip "k" AIRouter.urgent_housing (Some 60)
                       (Sample.fresh Sample.config_off 0) 60000))
      as (w2 & Hget & _).
    + vm_compute. discriminate.
    + rewrite Hget. reflexivity.
Defined.



Lemma canMakeCall_downward_closed_witness :
  fst (CostGuard.canMakeCall 100 "cheap" Sample.next_day_world) = Return true.
Proof.
  apply (canMakeCall_downward_closed 100 256 "cheap" Sample.next_day_world).
  - lia.
  - reflexivity.
Defined.

Lemma withBudget_stays_within_ceilings_witness :
  exists w',
    CostGuard.withBudget "cheap-navigator"
      (AIRouter.cheap_operation (AIRouter.new Sample.config_on) "navigator")
      (Some 256) "cheap" Sample.next_day_world
    = (Return (AIRouter.cheap_answer (AIRouter.new Sample.config_on) "navigator"), w')
    /\ dailyTokens (stats (costGuard w')) <= maxDailyTokens (config (costGuard w')).
Proof.
  eexists. split; [reflexivity|].
  apply (withBudget_stays_within_ceilings "cheap-navigator"
           (AIRouter.cheap_operation (AIRouter.new Sample.config_on) "navigator")
           (Some 256) "cheap" Sample.next_day_world
           (AIRouter.cheap_answer (AIRouter.new Sample.config_on) "navigator")).
  - intros w0. reflexivity.
  - reflexivity.
Defined.

Lemma emergency_limit_blocks_calls_witness :
  exists l w1 e w2,
    CostGuard.setEmergencyLimits (CostGuard.mkPatch (Some 0) None None None)
      Sample.next_day_world = (Return l, w1)
    /\ maxCheapTokens l = 256
    /\ CostGuard.withBudget "cheap-navigator"
         (AIRouter.cheap_operation (AIRouter.new Sample.config_on) "navigator")
         (Some 256) "cheap" w1 = (Throw e, w2).
Proof.
  destruct (emergency_limit_blocks_calls "cheap-navigator"
              (AIRouter.cheap_operation (AIRouter.new Sample.config_on) "navigator")
              (Some 256) "cheap" (CostGuard.mkPatch (Some 0) None None None) 0
              Sample.next_day_world)
    as (l & w1 & Hset & _ & _ & Hcheap & _ & _ & _ & Hblocked).
  - reflexivity.
  - lia.
  - vm_compute. reflexivity.
  - vm_compute. discriminate.
  - exists l, w1. eexists _, _. split; [exact Hset|].
    split; [exact (Hcheap eq_refl) | exact Hblocked].
Defined.

Lemma disabled_router_uses_rules_only_witness :
  JS.truthy (AIRouter.enabled
               (AIRouter.new
                  (Config.mk (JS.Bool true) (JS.Str "") None None None None
                     None None None None))) = false
  /\ exists r w',
      AIRouter.route
        (AIRouter.new
           (Config.mk (JS.Bool true) (JS.Str "") None None None None
              None None None None))
        "navigator" (InStr "I lost my wallet") Sample.navigator_options
        (Sample.fresh Sample.config_off 0) = (Return r, w')
      /\ dailyTokens (stats (costGuard w')) = 0.
Proof.
  split; [reflexivity|].
  destruct (proj2 (disabled_router_uses_rules_only
                     (AIRouter.new
                        (Config.mk (JS.Bool true) (JS.Str "") None None None None
                           None None None None))
                     "navigator" (InStr "I lost my wallet") Sample.navigator_options
                     (Sample.fresh Sample.config_off 0)) eq_refl)
    as (r & w' & Hroute & _ & Hdaily & _).
  exists r, w'. split; [exact Hroute | exact Hdaily].
Defined.

Lemma triage_careplan_never_use_ai_witness :
  (exists r w',
      AIRouter.route (AIRouter.new Sample.config_on) "careplan"
        (InObj Sample.low_food_client) Sample.triage_options
        (Sample.fresh Sample.config_on 0) = (Return r, w')
      /\ source r = Some "rules"
      /\ totalTokens (stats (costGuard w')) = 0)
  /\ (exists r w',
        AIRouter.route (AIRouter.new Sample.config_on) "triage"
          (InObj Sample.critical_housing_client) Sample.triage_options
          (Sample.fresh Sample.config_on 0) = (Return r, w')
        /\ source r = Some "fallback"
        /\ totalTokens (stats (costGuard w')) = 0).
Proof.
  split.
  - destruct (triage_careplan_never_use_ai (AIRouter.new Sample.config_on) "careplan"
                (InObj Sample.low_food_client) Sample.triage_options
                (Sample.fresh Sample.config_on 0) (or_intror eq_refl))
      as (r & w' & Hroute & _ & _ & Htotal & _ & _ & Hmiss).
    exists r, w'. split; [exact Hroute|].
    split; [exact (proj1 (proj1 (Hmiss eq_refl) eq_refl)) | exact Htotal].
  - destruct (triage_careplan_never_use_ai (AIRouter.new Sample.config_on) "triage"
                (InObj Sample.critical_housing_client) Sample.triage_options
                (Sample.fresh Sample.config_on 0) (or_introl eq_refl))
      as (r & w' & Hroute & _ & _ & Htotal & _ & _ & Hmiss).
    exists r, w'. split; [exact Hroute|].
    split; [exact (proj1 (proj2 (Hmiss eq_refl) eq_refl)) | exact Htotal].
Defined.

Lemma route_touches_only_its_key_witness :
  cache (costGuard
           (snd (AIRouter.route (AIRouter.new Sample.config_off) "triage"
                   (InObj Sample.low_food_client) Sample.triage_options
                   (Sample.fresh Sample.config_off 0)))) !! "other"
  = None.
Proof.
  assert (Hk : "other" <> AIRouter.cacheKey "triage" (InObj Sample.low_food_client)
                            Sample.triage_options)
    by (intros E; vm_compute in E; discriminate E).
  rewrite (proj1 (route_touches_only_its_key (AIRouter.new Sample.config_off)
                    "triage" (InObj Sample.low_food_client) Sample.triage_options
                    (Sample.fresh Sample.config_off 0) "other" Hk)).
  reflexivity.
Defined.

Lemma route_keeps_daily_budget_witness :
  dailyTokens
    (stats (costGuard
              (snd (AIRouter.route (AIRouter.new Sample.config_tight) "navigator"
                      (InStr "I lost my wallet") Sample.navigator_options
                      (Sample.fresh Sample.config_tight 0)))))
  <= maxDailyTokens
       (config (costGuard
                  (snd (AIRouter.route (AIRouter.new Sample.config_tight) "navigator"
                          (InStr "I lost my wallet") Sample.navigator_options
                          (Sample.fresh Sample.config_tight 0))))).
Proof.
  apply (route_keeps_daily_budget (AIRouter.new Sample.config_tight) "navigator"
           (InStr "I lost my wallet") Sample.navigator_options
           (Sample.fresh Sample.config_tight 0));
    vm_compute; discriminate.
Defined.

Lemma navigator_object_input_falls_back_witness :
  exists w' w'',
    AIRouter.route (AIRouter.new Sample.config_on) "navigator"
      (InObj Sample.low_food_client) Sample.navigator_options
      (Sample.fresh Sample.config_on 0)
    = (Return AIRouter.fallback_navigator, w')
    /\ AIRouter.route (AIRouter.new Sample.config_on) "navigator"
         (InObj Sample.low_food_client) Sample.navigator_options
         (set_now 1000 w')
       = (Return AIRouter.fallback_navigator, w'').
Proof.
  destruct (navigator_object_input_falls_back (AIRouter.new Sample.config_on)
              Sample.low_food_client Sample.navigator_options
              (Sample.fresh Sample.config_on 0) eq_refl)
    as (w' & Hfirst & _ & _ & _ & Hagain).
  destruct (Hagain 1000) as (w'' & Hsecond).
  exists w', w''. split; [exact Hfirst | exact Hsecond].
Defined.

Lemma unknown_task_gets_bare_uncertain_witness :
  exists w',
    AIRouter.route (AIRouter.new Sample.config_off) "summary"
      (InStr "weekly numbers") Sample.navigator_options
      (Sample.fresh Sample.config_off 0)
    = (Return AIRouter.uncertain_default, w').
Proof.
  destruct (unknown_task_gets_bare_uncertain (AIRouter.new Sample.config_off)
              "summary" (InStr "weekly numbers") Sample.navigator_options
              (Sample.fresh Sample.config_off 0))
    as (w' & Hroute & _); try discriminate; try reflexivity.
  exists w'. exact Hroute.
Defined.

Lemma navigator_reply_has_text_witness :
  fst (Routes.navigator (AIRouter.new Sample.config_off) None None
         (Sample.fresh Sample.config_off 0))
  = Routes.mkReply (response AIRouter.navigator_uncertain) 0.4 None.
Proof.
  apply (proj2 (navigator_reply_has_text (AIRouter.new Sample.config_off) None None
                  (Sample.fresh Sample.config_off 0) eq_refl));
    reflexivity.
Defined.

Lemma navigator_answers_what_is_mentioned_witness :
  exists c text,
    AIRouter.navigatorRules (InStr "Where can I get MENTAL HEALTH support?")
      Sample.navigator_options
    = Return (AIRouter.faq_answer c text).
Proof.
  apply (proj1 (proj2 (navigator_answers_what_is_mentioned
                         "Where can I get MENTAL HEALTH support?"
                         Sample.navigator_options))).
  exists "mental-health". eexists. split.
  - right. right. left. reflexivity.
  - reflexivity.
Defined.

Lemma triageRules_priority_witness :
  AIRouter.triageRules
    (InObj (mkClient "Cy" "555-0102" (Some ["mental-health"; "housing"])
              (Some "high") "90003" None))
    Sample.triage_options
  = AIRouter.urgent_housing.
Proof.
  apply (triageRules_priority
           (InObj (mkClient "Cy" "555-0102" (Some ["mental-health"; "housing"])
                     (Some "high") "90003" None))
           Sample.triage_options).
  reflexivity.
Defined.

Lemma triageRules_lists_witness :
  exists recs,
    recommendations (AIRouter.triageRules (InObj Sample.low_food_client)
                       Sample.triage_options) = Some recs
    /\ recs = [].
Proof.
  destruct (triageRules_lists (InObj Sample.low_food_client) Sample.triage_options)
    as (recs & steps & Hrecs & _ & _ & Hplain).
  exists recs. split; [exact Hrecs|].
  destruct Hplain as (-> & _); [discriminate | reflexivity].
Defined.

Lemma careplan_depends_on_first_need_witness :
  fst (AIRouter.careplanRules
         (InObj (mkClient "Di" "555-0103" (Some ["food"; "employment"])
                   (Some "high") "90004" (Some 2)))
         Sample.triage_options (Sample.fresh Sample.config_on 0))
  = fst (AIRouter.careplanRules (InObj Sample.low_food_client)
           Sample.navigator_options (Sample.fresh Sample.config_off 0)).
Proof.
  apply (careplan_depends_on_first_need
           (InObj (mkClient "Di" "555-0103" (Some ["food"; "employment"])
                     (Some "high") "90004" (Some 2)))
           (InObj Sample.low_food_client)
           Sample.triage_options Sample.navigator_options
           (Sample.fresh Sample.config_on 0) (Sample.fresh Sample.config_off 0));
    reflexivity.
Defined.

Lemma router_estimates_within_tier_ceilings_witness :
  JS.default_arg 100 (Config.AI_MAX_TOKENS_CHEAP Config.empty)
  <= maxCheapTokens (config (CostGuard.new Config.empty 0)).
Proof.
  apply (router_estimates_within_tier_ceilings Config.empty 0); reflexivity.
Defined.

End MoreExamples.
